(** * HomeCatalog: attribute paths, the predicate engine and record validation

    A shallow embedding of the Python sources
      - [homecatalog/traverse_path/by_path.py]   (module [ByPath])
      - [homecatalog/traverse_path/compare.py]   (module [Compare])
      - [homecatalog/traverse_path/pydantic.py]  (module [Search])
      - [homecatalog/models.py]                  (module [Models])
    followed by the properties established about them.

    Conventions.  A Python call that may raise returns a [result]; a method
    that mutates [self] is a function from the old state to a result and the
    new state.  Strings are [string]s over [ascii]; the embedding is exact for
    ASCII text (keyword names, attribute names, operator names), code points
    above 127 are treated as characters that are neither word characters nor
    letters with a case. *)

From Stdlib Require Import String Ascii List ZArith Lia Bool DecimalString.
From Stdlib Require Import Permutation.
Import ListNotations.
Open Scope string_scope.

(** ** Python runtime: exceptions, results, strings *)

Module Py.

(** The exception classes the sources raise or let through, with the
    text of the exception. *)
Inductive exn : Type :=
| ValueError (msg : string)
| KeyError (msg : string)
| AttributeError (msg : string)
| TypeError (msg : string)
| IndexError (msg : string)
| StopIteration
| ValidationError (msg : string).

Inductive result (A : Type) : Type :=
| Ok (a : A)
| Raise (e : exn).
Arguments Ok {A} a.
Arguments Raise {A} e.

Definition bind {A B : Type} (r : result A) (k : A -> result B) : result B :=
  match r with
  | Ok a => k a
  | Raise e => Raise e
  end.

(** A pure function applied to the value of a call that returned, as [not]
    is to the value of a test. *)
Definition map_result {A B : Type} (f : A -> B) (r : result A) : result B :=
  bind r (fun a => Ok (f a)).

(** *** Characters *)

Definition underscore : ascii := "_"%char.
Definition newline : ascii := "010"%char.

Definition in_range (lo hi c : ascii) : bool :=
  (nat_of_ascii lo <=? nat_of_ascii c)%nat && (nat_of_ascii c <=? nat_of_ascii hi)%nat.

Definition is_upper_char (c : ascii) : bool := in_range "A" "Z" c.
Definition is_lower_char (c : ascii) : bool := in_range "a" "z" c.
Definition is_digit_char (c : ascii) : bool := in_range "0" "9" c.

(** The class [\w] of the [re] module on ASCII characters.  On a [str]
    pattern [\w] also matches the letters and digits beyond ASCII, which this
    definition does not: what is stated of it is stated of ASCII text. *)
Definition is_word_char (c : ascii) : bool :=
  is_upper_char c || is_lower_char c || is_digit_char c || Ascii.eqb c underscore.

Definition upper_char (c : ascii) : ascii :=
  if is_lower_char c then ascii_of_nat (nat_of_ascii c - 32) else c.

Definition lower_char (c : ascii) : ascii :=
  if is_upper_char c then ascii_of_nat (nat_of_ascii c + 32) else c.

(** *** Strings *)

Fixpoint map_string (f : ascii -> ascii) (s : string) : string :=
  match s with
  | EmptyString => EmptyString
  | String c s' => String (f c) (map_string f s')
  end.

(** [s.upper()] and [s.lower()] on ASCII text: the letters [a]-[z] and
    [A]-[Z] change case and every other character stays.  Characters beyond
    ASCII, some of which [str.upper] maps onto ASCII letters, are outside the
    definition: what is stated of it is stated of ASCII text. *)
Definition upper (s : string) : string := map_string upper_char s.
Definition lower (s : string) : string := map_string lower_char s.

Fixpoint forall_string (p : ascii -> bool) (s : string) : bool :=
  match s with
  | EmptyString => true
  | String c s' => p c && forall_string p s'
  end.

(** [sep.join(parts)] *)
Definition join (sep : string) (parts : list string) : string :=
  String.concat sep parts.

(** [s.split(sep)] for a non-empty separator: the pieces between the
    non-overlapping occurrences of [sep], scanned from the left.  [skip]
    counts the characters of an occurrence still to be passed over and [cur]
    is the piece being collected. *)
Fixpoint split_from (sep : string) (skip : nat) (cur : string) (s : string)
  : list string :=
  match s with
  | EmptyString => [cur]
  | String c s' =>
      match skip with
      | S k => split_from sep k cur s'
      | O =>
          if String.prefix sep s
          then cur :: split_from sep (String.length sep - 1) EmptyString s'
          else split_from sep 0 (cur ++ String c EmptyString) s'
      end
  end.

Definition split (sep : string) (s : string) : list string :=
  split_from sep 0 EmptyString s.

(** [s.startswith(t)], [s.endswith(t)], [t in s] *)
Definition startswith (s t : string) : bool := String.prefix t s.

Fixpoint is_substring (t s : string) : bool :=
  String.prefix t s ||
  match s with
  | EmptyString => false
  | String _ s' => is_substring t s'
  end.

Definition endswith (s t : string) : bool :=
  (String.length t <=? String.length s)%nat &&
  String.eqb (String.substring (String.length s - String.length t) (String.length t) s) t.

(** *** [collections.deque.rotate] on a list: [n] steps to the right,
    to the left when [n] is negative; nothing on an empty deque. *)
Definition rotate {A : Type} (n : Z) (d : list A) : list A :=
  match d with
  | [] => []
  | _ =>
      let len := Z.of_nat (List.length d) in
      let k := Z.to_nat (len - (n mod len)) in
      (skipn k d ++ firstn k d)%list
  end.

(** [d.popleft()] *)
Definition popleft {A : Type} (d : list A) : result A * list A :=
  match d with
  | [] => (Raise (IndexError "pop from an empty deque"), d)
  | x :: d' => (Ok x, d')
  end.

(** *** Methods: a method of an object whose state is [S] either returns or
    raises, and leaves a state behind in both cases. *)
Definition Method (S A : Type) : Type := S -> result A * S.

Definition ret {S A : Type} (a : A) : Method S A := fun s => (Ok a, s).

Definition raise {S A : Type} (e : exn) : Method S A := fun s => (Raise e, s).

Definition mbind {S A B : Type} (m : Method S A) (k : A -> Method S B)
  : Method S B :=
  fun s =>
    match m s with
    | (Ok a, s') => k a s'
    | (Raise e, s') => (Raise e, s')
    end.

(** A computation that does not touch the state of [self]. *)
Definition lift {S A : Type} (r : result A) : Method S A := fun s => (r, s).

Definition read {S : Type} : Method S S := fun s => (Ok s, s).

(** *** The data model of Python values, as far as the sources use it.

    The traversal and the operators are duck-typed: they work on whatever
    supports attribute lookup, [==], [<], [in], [.lower()] and so on.  The
    interface is what they require of a value. *)
Class PyData (V : Type) : Type := {
  (** the object [None] and the test [x is None] *)
  py_None : V;
  py_is_None : V -> bool;
  (** [type(x).__name__] *)
  py_type_name : V -> string;
  (** [getattr(x, name)]: [None] when it raises [AttributeError], whose text
      is then [py_no_attr_text x name] *)
  py_getattr : V -> string -> option V;
  py_no_attr_text : V -> string -> string;
  (** [bool(x == y)], [bool(x != y)], [bool(x > y)], ... *)
  py_eq : V -> V -> result bool;
  py_ne : V -> V -> result bool;
  py_gt : V -> V -> result bool;
  py_ge : V -> V -> result bool;
  py_lt : V -> V -> result bool;
  py_le : V -> V -> result bool;
  (** [x in c] *)
  py_in : V -> V -> result bool;
  (** [x.lower()], [x.startswith(y)], [x.endswith(y)] *)
  py_lower : V -> result V;
  py_startswith : V -> V -> result bool;
  py_endswith : V -> V -> result bool
}.

End Py.

Import Py.

Declare Scope method_scope.
Delimit Scope method_scope with method.
Notation "x <- m ;; k" := (mbind m (fun x => k))
  (at level 61, m at next level, right associativity) : method_scope.
Notation "m ;;; k" := (mbind m (fun _ => k))
  (at level 61, right associativity) : method_scope.

(** ** by_path.py *)

Module ByPath.

(** [class AttrPath(BaseModel)]: the path text, the separator (a private
    attribute, always its default) and the deque of segments. *)
Record AttrPath : Type := {
  value : string;
  _separator : string;
  _parts : list string
}.

Definition set_parts (p : AttrPath) (d : list string) : AttrPath :=
  {| value := value p; _separator := _separator p; _parts := d |}.

(** [AttrPath.__init__] *)
Definition AttrPath_init (v : string) : AttrPath :=
  {| value := v; _separator := "__"; _parts := split "__" v |}.

(** A [str | AttrPath] argument. *)
Inductive path_arg : Type :=
| PathStr (s : string)
| PathObj (p : AttrPath).

(** [AttrPath.str_to_path] *)
Definition str_to_path (v : path_arg) : AttrPath :=
  match v with
  | PathStr s => AttrPath_init s
  | PathObj p => p
  end.

(** [AttrPath.parts], [AttrPath.render], [AttrPath.depth] *)
Definition parts (p : AttrPath) : list string := _parts p.

Definition render (p : AttrPath) : string := join (_separator p) (_parts p).

Definition depth (p : AttrPath) : nat := List.length (_parts p).

(** [AttrPath.pop(index=-1)]: rotate by [-index], pop on the left, rotate
    back by [index]. *)
Definition pop (index : Z) : Method AttrPath string :=
  fun self =>
    let rotated := rotate (- index) (_parts self) in
    match popleft rotated with
    | (Ok v, rest) => (Ok v, set_parts self (rotate index rest))
    | (Raise e, rest) => (Raise e, set_parts self rest)
    end.

(** [AttrPath.pop()] with the default index. *)
Definition pop_default : Method AttrPath string := pop (-1).

(** [AttrPath.popleft] *)
Definition popleft : Method AttrPath string :=
  fun self =>
    let (r, rest) := Py.popleft (_parts self) in (r, set_parts self rest).

(** [AttrPath.get(index)]: deque indexing, negative indices from the end. *)
Definition get (index : Z) (self : AttrPath) : result string :=
  let len := Z.of_nat (List.length (_parts self)) in
  let i := (if index <? 0 then index + len else index)%Z in
  if ((i <? 0) || (len <=? i))%Z
  then Raise (IndexError "deque index out of range")
  else match nth_error (_parts self) (Z.to_nat i) with
       | Some v => Ok v
       | None => Raise (IndexError "deque index out of range")
       end.

(** [path_as_parts], [path_popleft], [path_popright] with the default
    separator. *)
Definition path_as_parts (path : string) : list string := split "__" path.

Definition path_popleft (path : string) : string * string :=
  let ps := path_as_parts path in
  (hd "" ps, if (1 <? List.length ps)%nat then join "__" (tl ps) else "").

Definition path_popright (path : string) : string * string :=
  let ps := path_as_parts path in
  (last ps "", if (1 <? List.length ps)%nat then join "__" (removelast ps) else "").

Section Resolve.
Context {V : Type} `{PyData V}.

(** [f"{path}"] and [path == ""] for a [str | AttrPath]; a model object never
    equals a string. *)
Definition path_text (path : path_arg) : string :=
  match path with
  | PathStr s => s
  | PathObj p => render p
  end.

Definition is_empty_str (path : path_arg) : bool :=
  match path with
  | PathStr s => String.eqb s ""
  | PathObj _ => false
  end.

(** The text of the [AttributeError] that [getattr_path] raises. *)
Definition no_path_msg (obj : V) (path : path_arg) (inner : string) : string :=
  "'" ++ py_type_name obj ++ "' object has no attribute path '"
      ++ path_text path ++ "', since " ++ inner.

(** The loop [for name in attr_path] of [getattr_path]; [default] is [None]
    for the sentinel [MISSING]. *)
Fixpoint getattr_loop (obj : V) (path : path_arg) (default : option V)
  (names : list string) (current : V) : result V :=
  match names with
  | [] => Ok current
  | name :: rest =>
      match default with
      | None =>
          match py_getattr current name with
          | Some fetched =>
              if py_is_None fetched then Ok py_None
              else getattr_loop obj path default rest fetched
          | None =>
              Raise (AttributeError
                       (no_path_msg obj path (py_no_attr_text current name)))
          end
      | Some d =>
          match py_getattr current name with
          | Some fetched =>
              if py_is_None fetched then Ok py_None
              else getattr_loop obj path default rest fetched
          | None => Ok d
          end
      end
  end.

(** [getattr_path(obj, path, *, default=MISSING)] *)
Definition getattr_path (obj : V) (path : path_arg) (default : option V)
  : result V :=
  if is_empty_str path then Ok obj
  else getattr_loop obj path default (_parts (str_to_path path)) obj.

End Resolve.

End ByPath.

(** ** compare.py *)

Module Compare.

Section Functions.
Context {V : Type} `{PyData V}.

Definition equals (value rhs : V) : result bool := py_eq value rhs.

Definition not_equal (value rhs : V) : result bool := py_ne value rhs.

Definition greater_than (value rhs : V) : result bool := py_gt value rhs.

Definition greater_than_or_equal (value rhs : V) : result bool := py_ge value rhs.

Definition less_than (value rhs : V) : result bool := py_lt value rhs.

Definition less_than_or_equal_to (value rhs : V) : result bool := py_le value rhs.

Definition in_ (value rhs : V) : result bool := py_in value rhs.

(** [rhs in value] *)
Definition contains (value rhs : V) : result bool := py_in rhs value.

(** [rhs.lower() in value.lower()]: the left operand is evaluated first. *)
Definition icontains (value rhs : V) : result bool :=
  bind (py_lower rhs) (fun r => bind (py_lower value) (fun v => py_in r v)).

Definition startswith (value rhs : V) : result bool := py_startswith value rhs.

(** [value.lower().startswith(rhs.lower())] *)
Definition istartswith (value rhs : V) : result bool :=
  bind (py_lower value) (fun v => bind (py_lower rhs) (fun r => py_startswith v r)).

Definition endswith (value rhs : V) : result bool := py_endswith value rhs.

Definition iendswith (value rhs : V) : result bool :=
  bind (py_lower value) (fun v => bind (py_lower rhs) (fun r => py_endswith v r)).

(** [value.lower() == rhs.lower()] *)
Definition iequal (value rhs : V) : result bool :=
  bind (py_lower value) (fun v => bind (py_lower rhs) (fun r => py_eq v r)).

End Functions.

(** [class Operators(Enum)] *)
Inductive Operators : Type :=
| EQ | NE | GT | GE | LT | LE | IN
| CONTAINS | ICONTAINS | STARTSWITH | ISTARTSWITH | ENDSWITH | IENDSWITH
| IEQUAL.

(** The members in definition order, as iterating the class yields them. *)
Definition members : list Operators :=
  [EQ; NE; GT; GE; LT; LE; IN; CONTAINS; ICONTAINS; STARTSWITH; ISTARTSWITH;
   ENDSWITH; IENDSWITH; IEQUAL].

(** [member.name] *)
Definition name (op : Operators) : string :=
  match op with
  | EQ => "EQ" | NE => "NE" | GT => "GT" | GE => "GE" | LT => "LT" | LE => "LE"
  | IN => "IN" | CONTAINS => "CONTAINS" | ICONTAINS => "ICONTAINS"
  | STARTSWITH => "STARTSWITH" | ISTARTSWITH => "ISTARTSWITH"
  | ENDSWITH => "ENDSWITH" | IENDSWITH => "IENDSWITH" | IEQUAL => "IEQUAL"
  end.

(** [Operators[key]]: lookup of a member by its name, [KeyError(key)] when
    no member has that name. *)
Definition Operators_getitem (key : string) : result Operators :=
  match find (fun m => String.eqb (name m) key) members with
  | Some m => Ok m
  | None => Raise (KeyError key)
  end.

(** [Operators.get_operator(path, default=MISSING)] for a [str] path *)
Definition get_operator (path : string) (default : option Operators)
  : result Operators :=
  let as_string := upper (last (split "_" path) "") in
  match find (fun m => String.eqb (name m) as_string) members with
  | Some m => Ok m
  | None =>
      match default with
      | None => Raise (KeyError ("Operator '" ++ as_string ++ "' not found"))
      | Some d => Ok d
      end
  end.

Section Evaluate.
Context {V : Type} `{PyData V}.

(** [member.value]: the function the member wraps. *)
Definition Operators_value (op : Operators) : V -> V -> result bool :=
  match op with
  | EQ => equals
  | NE => not_equal
  | GT => greater_than
  | GE => greater_than_or_equal
  | LT => less_than
  | LE => less_than_or_equal_to
  | IN => in_
  | CONTAINS => contains
  | ICONTAINS => icontains
  | STARTSWITH => startswith
  | ISTARTSWITH => istartswith
  | ENDSWITH => endswith
  | IENDSWITH => iendswith
  | IEQUAL => iequal
  end.

(** [Operators.evaluate] *)
Definition evaluate (self : Operators) (value rhs : V) : result bool :=
  Operators_value self value rhs.

End Evaluate.

End Compare.

(** ** pydantic.py *)

Module Search.

Import ByPath Compare.

(** [re.compile(r"^(\w+)_([^_]+)$").search(lhs)], as the backtracking matcher
    runs it.  [match_token] is [[^_]+$] at the current position: the
    greedy run is tried at its longest first, and [$] holds at the end of the
    text or just before a final newline. *)
Definition at_dollar (s : string) : bool :=
  match s with
  | EmptyString => true
  | String c EmptyString => Ascii.eqb c newline
  | _ => false
  end.

Fixpoint match_token (s : string) : option string :=
  match s with
  | EmptyString => None
  | String c s' =>
      if Ascii.eqb c underscore then None
      else match match_token s' with
           | Some t => Some (String c t)
           | None => if at_dollar s' then Some (String c EmptyString) else None
           end
  end.

(** [^(\w+)_] followed by the token: the greedy [\w+] is tried at its longest
    first and gives characters back until an underscore followed by a token
    is found.  The result is [(group(1), group(2))]. *)
Fixpoint match_pattern (s : string) : option (string * string) :=
  match s with
  | EmptyString => None
  | String c s' =>
      if is_word_char c then
        match match_pattern s' with
        | Some (g1, g2) => Some (String c g1, g2)
        | None =>
            match s' with
            | String u rest =>
                if Ascii.eqb u underscore then
                  match match_token rest with
                  | Some g2 => Some (String c EmptyString, g2)
                  | None => None
                  end
                else None
            | EmptyString => None
            end
        end
      else None
  end.

(** [coerce_to_list] on an optional value that is a list or not. *)
Definition coerce_to_list {A : Type} (value : option (A + list A))
  : option (list A) :=
  match value with
  | None => None
  | Some (inl x) => Some [x]
  | Some (inr l) => Some l
  end.

Section SearchBase.
Context {V : Type} `{PyData V}.

(** [class SearchBase(RootModel[list[SearchRoot]])]: the state of a
    collection is its wrapped list. *)
Record SearchBase : Type := { root : list V }.

(** [ClassBase.getattr_path(self, path)] with the default left [MISSING] *)
Definition item_getattr_path (self : V) (path : path_arg) : result V :=
  getattr_path self path None.

(** [SearchBase._compare] *)
Definition _compare (item : V) (lhs : AttrPath) (rhs : V) (operator : Operators)
  : result bool :=
  bind (item_getattr_path item (PathObj lhs))
       (fun value => evaluate operator value rhs).

(** [SearchBase._split_kwarg]; the keyword arguments are the pairs of the
    dictionary in order. *)
Definition _split_kwarg (kwargs : list (string * V)) : result (string * V) :=
  if (1 <? List.length kwargs)%nat
  then Raise (ValueError "only one kwarg is allowed beyond default")
  else match kwargs with
       | kv :: _ => Ok kv
       | [] => Raise StopIteration
       end.

(** [SearchBase._split_lhs] *)
Definition _split_lhs (lhs : string) : result (AttrPath * Operators) :=
  match match_pattern lhs with
  | None => Raise (ValueError ("invalid path: " ++ lhs))
  | Some (group1, group2) =>
      let path := str_to_path (PathStr group1) in
      let operator_name := upper group2 in
      bind (Operators_getitem operator_name)
           (fun operator => Ok (path, operator))
  end.

(** [SearchBase._get_compare_tuple] *)
Definition _get_compare_tuple (kwargs : list (string * V))
  : result (AttrPath * V * Operators) :=
  bind (_split_kwarg kwargs) (fun '(lhs, rhs) =>
  bind (_split_lhs lhs) (fun '(lhs, operator) =>
  Ok (lhs, rhs, operator))).

(** The list comprehension [[item for item in items if keep(item)]]: the
    items are tested in order and the first test that raises ends it. *)
Fixpoint comprehension (keep : V -> result bool) (items : list V)
  : result (list V) :=
  match items with
  | [] => Ok []
  | item :: rest =>
      bind (keep item) (fun b =>
      bind (comprehension keep rest) (fun kept =>
      Ok (if b then item :: kept else kept)))
  end.

Open Scope method_scope.

Definition set_root (l : list V) : Method SearchBase unit :=
  fun _ => (Ok tt, {| root := l |}).

(** [SearchBase.filter]; the value returned is [self]. *)
Definition filter (kwargs : list (string * V)) : Method SearchBase unit :=
  t <- lift (_get_compare_tuple kwargs) ;;
  let '(lhs, rhs, operator) := t in
  self <- read ;;
  kept <- lift (comprehension
                  (fun item => _compare item lhs rhs operator) (root self)) ;;
  set_root kept.

(** [SearchBase.exclude] *)
Definition exclude (kwargs : list (string * V)) : Method SearchBase unit :=
  t <- lift (_get_compare_tuple kwargs) ;;
  let '(lhs, rhs, operator) := t in
  self <- read ;;
  kept <- lift (comprehension
                  (fun item =>
                     map_result negb (_compare item lhs rhs operator))
                  (root self)) ;;
  set_root kept.

(** [SearchBase.__len__] and [SearchBase.__getitem__] with a non-negative
    index *)
Definition len : Method SearchBase nat :=
  self <- read ;; ret (List.length (root self)).

Definition getitem (i : nat) : Method SearchBase V :=
  self <- read ;;
  match nth_error (root self) i with
  | Some v => ret v
  | None => raise (IndexError "list index out of range")
  end.

(** [SearchBase.get]: [items_list] is [self], the object [filter] returns. *)
Definition get (default : V) (kwargs : list (string * V))
  : Method SearchBase V :=
  filter kwargs ;;;
  n <- len ;;
  if negb (n =? 1)%nat then ret default else getitem 0.

(** [SearchBase.append] *)
Definition append (item : V) : Method SearchBase unit :=
  self <- read ;; set_root (root self ++ [item])%list.

Close Scope method_scope.

End SearchBase.

End Search.

(** ** A universe of values for running the code: [None], integers, strings,
    lists and model objects with named fields. *)

Module PyObj.

#[warnings="-register-all"]
Inductive pyobj : Type :=
| PyNone
| PyInt (z : Z)
| PyStr (s : string)
| PyList (l : list pyobj)
| PyModel (type_name : string) (fields : list (string * pyobj)).

Definition type_name_of (v : pyobj) : string :=
  match v with
  | PyNone => "NoneType"
  | PyInt _ => "int"
  | PyStr _ => "str"
  | PyList _ => "list"
  | PyModel t _ => t
  end.

Definition is_None (v : pyobj) : bool :=
  match v with PyNone => true | _ => false end.

Fixpoint lookup_field (name : string) (fields : list (string * pyobj))
  : option pyobj :=
  match fields with
  | [] => None
  | (k, v) :: rest => if String.eqb k name then Some v else lookup_field name rest
  end.

(** Attribute lookup finds the fields of a model object; the methods of the
    built-in types are not part of this universe. *)
Definition getattr (v : pyobj) (name : string) : option pyobj :=
  match v with
  | PyModel _ fields => lookup_field name fields
  | _ => None
  end.

Definition no_attr_text (v : pyobj) (name : string) : string :=
  "'" ++ type_name_of v ++ "' object has no attribute '" ++ name ++ "'".

(** [==]: values of different types are unequal, lists compare element by
    element, model objects by type and fields. *)
Fixpoint eqb (a b : pyobj) : bool :=
  match a, b with
  | PyNone, PyNone => true
  | PyInt x, PyInt y => Z.eqb x y
  | PyStr s, PyStr t => String.eqb s t
  | PyList l, PyList m =>
      (fix go (l m : list pyobj) : bool :=
         match l, m with
         | [], [] => true
         | x :: l', y :: m' => eqb x y && go l' m'
         | _, _ => false
         end) l m
  | PyModel t f, PyModel u g =>
      String.eqb t u &&
      (fix go (f g : list (string * pyobj)) : bool :=
         match f, g with
         | [], [] => true
         | (k, x) :: f', (j, y) :: g' => String.eqb k j && eqb x y && go f' g'
         | _, _ => false
         end) f g
  | _, _ => false
  end.

(** The ordering operators. *)
Inductive order_op : Type := OpLt | OpLe | OpGt | OpGe.

Definition symbol (op : order_op) : string :=
  match op with OpLt => "<" | OpLe => "<=" | OpGt => ">" | OpGe => ">=" end.

Definition holds (op : order_op) (c : comparison) : bool :=
  match op, c with
  | OpLt, Lt => true
  | OpLe, (Lt | Eq) => true
  | OpGt, Gt => true
  | OpGe, (Gt | Eq) => true
  | _, _ => false
  end.

Definition not_supported (op : order_op) (a b : pyobj) : exn :=
  TypeError ("'" ++ symbol op ++ "' not supported between instances of '"
                 ++ type_name_of a ++ "' and '" ++ type_name_of b ++ "'").

(** Integers and strings are ordered among themselves; lists are ordered by
    their first differing elements, or by length when one is a prefix of the
    other; every other pair raises [TypeError]. *)
Fixpoint order (op : order_op) (a b : pyobj) : result bool :=
  match a, b with
  | PyInt x, PyInt y => Ok (holds op (Z.compare x y))
  | PyStr s, PyStr t => Ok (holds op (String.compare s t))
  | PyList l, PyList m =>
      (fix go (l m : list pyobj) : result bool :=
         match l, m with
         | [], [] => Ok (holds op Eq)
         | [], _ :: _ => Ok (holds op Lt)
         | _ :: _, [] => Ok (holds op Gt)
         | x :: l', y :: m' => if eqb x y then go l' m' else order op x y
         end) l m
  | _, _ => Raise (not_supported op a b)
  end.

(** [x in c]: membership in a list, substring of a string; iterating a model
    object yields its (name, value) pairs, none of which equals a value of
    this universe; integers and [None] are not iterable. *)
Definition member (x c : pyobj) : result bool :=
  match c with
  | PyList l => Ok (existsb (eqb x) l)
  | PyStr s =>
      match x with
      | PyStr t => Ok (is_substring t s)
      | _ => Raise (TypeError ("'in <string>' requires string as left operand, not "
                                 ++ type_name_of x))
      end
  | PyModel _ _ => Ok false
  | _ => Raise (TypeError ("argument of type '" ++ type_name_of c
                             ++ "' is not iterable"))
  end.

(** Calling a string method on something that is not a string: the attribute
    is missing, or is a field, which is not callable. *)
Definition no_method (v : pyobj) (name : string) : exn :=
  match getattr v name with
  | Some f => TypeError ("'" ++ type_name_of f ++ "' object is not callable")
  | None => AttributeError (no_attr_text v name)
  end.

Definition lower_method (v : pyobj) : result pyobj :=
  match v with
  | PyStr s => Ok (PyStr (lower s))
  | _ => Raise (no_method v "lower")
  end.

Definition startswith_method (v r : pyobj) : result bool :=
  match v, r with
  | PyStr s, PyStr t => Ok (Py.startswith s t)
  | PyStr _, _ =>
      Raise (TypeError ("startswith first arg must be str or a tuple of str, not "
                          ++ type_name_of r))
  | _, _ => Raise (no_method v "startswith")
  end.

Definition endswith_method (v r : pyobj) : result bool :=
  match v, r with
  | PyStr s, PyStr t => Ok (Py.endswith s t)
  | PyStr _, _ =>
      Raise (TypeError ("endswith first arg must be str or a tuple of str, not "
                          ++ type_name_of r))
  | _, _ => Raise (no_method v "endswith")
  end.

#[global] Instance pyobj_data : PyData pyobj := {
  py_None := PyNone;
  py_is_None := is_None;
  py_type_name := type_name_of;
  py_getattr := getattr;
  py_no_attr_text := no_attr_text;
  py_eq := fun a b => Ok (eqb a b);
  py_ne := fun a b => Ok (negb (eqb a b));
  py_gt := order OpGt;
  py_ge := order OpGe;
  py_lt := order OpLt;
  py_le := order OpLe;
  py_in := member;
  py_lower := lower_method;
  py_startswith := startswith_method;
  py_endswith := endswith_method
}.

End PyObj.

(** ** models.py *)

Module Models.

(** What a record is built from: the nested structure the XML parser yields,
    or the keyword arguments of a constructor call. *)
#[warnings="-register-all"]
Inductive raw : Type :=
| RNone
| RInt (z : Z)
| RStr (s : string)
| RList (l : list raw)
| RDict (d : list (string * raw)).

Fixpoint remove_char (c : ascii) (s : string) : string :=
  match s with
  | EmptyString => EmptyString
  | String x s' =>
      if Ascii.eqb x c then remove_char c s' else String x (remove_char c s')
  end.

(** [name.replace("_", "")] *)
Definition remove_underscore (name : string) : string :=
  remove_char underscore name.

Definition add_attribute_symbol (name : string) : string := "@" ++ name.

Definition add_symbol_remove_underscore (name : string) : string :=
  add_attribute_symbol (remove_underscore name).

Definition plain (name : string) : string := name.

(** [alias_choices]: the [AliasChoices], in the order they are tried. *)
Definition alias_choices (name : string) : list string :=
  map (fun choice => choice name)
      [remove_underscore; add_symbol_remove_underscore].

Fixpoint lookup (key : string) (d : list (string * raw)) : option raw :=
  match d with
  | [] => None
  | (k, v) :: rest => if String.eqb k key then Some v else lookup key rest
  end.

(** The first of the alias choices that is a key of the input. *)
Fixpoint lookup_choices (choices : list string) (d : list (string * raw))
  : option raw :=
  match choices with
  | [] => None
  | c :: rest =>
      match lookup c d with
      | Some v => Some v
      | None => lookup_choices rest d
      end
  end.

(** [enum.StrEnum] classes with [enum.auto()]: the value of a member is its
    name in lower case. *)
Module ThingType.
Inductive t : Type :=
| BOARDGAME | BOARDGAMEACCESSORY | BOARDGAMEEXPANSION | RPGISSUE | RPGITEM
| VIDEOGAME.
Definition members : list (string * t) :=
  [("boardgame", BOARDGAME); ("boardgameaccessory", BOARDGAMEACCESSORY);
   ("boardgameexpansion", BOARDGAMEEXPANSION); ("rpgissue", RPGISSUE);
   ("rpgitem", RPGITEM); ("videogame", VIDEOGAME)].
End ThingType.

Module NameType.
Inductive t : Type := PRIMARY | ALTERNATE.
Definition members : list (string * t) :=
  [("primary", PRIMARY); ("alternate", ALTERNATE)].
End NameType.

Module LinkType.
Inductive t : Type :=
| BOARDGAMEACCESSORY | BOARDGAMEARTIST | BOARDGAMECATEGORY
| BOARDGAMECOMPILATION | BOARDGAMEDESIGNER | BOARDGAMEEXPANSION
| BOARDGAMEFAMILY | BOARDGAMEIMPLEMENTATION | BOARDGAMEINTEGRATION
| BOARDGAMEMECHANIC | BOARDGAMEPUBLISHER | BOARDGAMEVERSION
| RPGARTIST | RPGCATEGORY | RPGCOMPILATION | RPGDESIGNER | RPGFAMILY
| RPGPUBLISHER | RPGVERSION.
Definition members : list (string * t) :=
  [("boardgameaccessory", BOARDGAMEACCESSORY);
   ("boardgameartist", BOARDGAMEARTIST);
   ("boardgamecategory", BOARDGAMECATEGORY);
   ("boardgamecompilation", BOARDGAMECOMPILATION);
   ("boardgamedesigner", BOARDGAMEDESIGNER);
   ("boardgameexpansion", BOARDGAMEEXPANSION);
   ("boardgamefamily", BOARDGAMEFAMILY);
   ("boardgameimplementation", BOARDGAMEIMPLEMENTATION);
   ("boardgameintegration", BOARDGAMEINTEGRATION);
   ("boardgamemechanic", BOARDGAMEMECHANIC);
   ("boardgamepublisher", BOARDGAMEPUBLISHER);
   ("boardgameversion", BOARDGAMEVERSION);
   ("rpgartist", RPGARTIST); ("rpgcategory", RPGCATEGORY);
   ("rpgcompilation", RPGCOMPILATION); ("rpgdesigner", RPGDESIGNER);
   ("rpgfamily", RPGFAMILY); ("rpgpublisher", RPGPUBLISHER);
   ("rpgversion", RPGVERSION)].
End LinkType.

(** [not_empty]: the validator of a sized value, here a list. *)
Definition not_empty {A : Type} (value : list A) : result (list A) :=
  if (List.length value =? 0)%nat then Raise (ValueError "value is empty")
  else Ok value.

Definition str_of_Z (z : Z) : string := NilZero.string_of_int (Z.to_int z).

(** [is_not_future]: [now_year] is [dt.now(tz=UTC).year].  The function has
    no [return]: when it does not raise, its value is [None]. *)
Definition is_not_future (now_year : Z) (value : option Z) : result (option Z) :=
  match value with
  | Some v =>
      if negb (v =? 0)%Z && (now_year <? v)%Z
      then Raise (ValueError (str_of_Z v ++ " is in the future"))
      else Ok None
  | None => Ok None
  end.

(** *** Validation, as pydantic runs it for these classes.

    Every field is looked up under its validation aliases and validated in
    lax mode; a field that fails makes the construction raise
    [ValidationError].  pydantic reports all failing fields of a model in
    one error, the embedding reports the first: a construction fails in the
    one exactly when it fails in the other. *)
Section Validation.

(** Supplied by pydantic and the clock: how a string converts to an [int]
    field, which strings are URLs, the current year, and the validation of
    the poll collection. *)
Variable int_of_str : string -> option Z.
Variable valid_url : string -> bool.
Variable now_year : Z.
Variable Polls : Type.
Variable validate_polls : raw -> result Polls.
Variable no_polls : Polls.

Definition invalid {A : Type} (loc msg : string) : result A :=
  Raise (ValidationError (loc ++ ": " ++ msg)).

(** A validator function raising [ValueError] fails the validation. *)
Definition run_validator {A : Type} (loc : string) (r : result A) : result A :=
  match r with
  | Ok a => Ok a
  | Raise (ValueError msg) => invalid loc ("Value error, " ++ msg)
  | Raise e => Raise e
  end.

Definition validate_int (loc : string) (r : raw) : result Z :=
  match r with
  | RInt z => Ok z
  | RStr s =>
      match int_of_str s with
      | Some z => Ok z
      | None =>
          invalid loc "Input should be a valid integer, unable to parse string as an integer"
      end
  | _ => invalid loc "Input should be a valid integer"
  end.

Definition validate_str (loc : string) (r : raw) : result string :=
  match r with
  | RStr s => Ok s
  | _ => invalid loc "Input should be a valid string"
  end.

Definition validate_url (loc : string) (r : raw) : result string :=
  match r with
  | RStr s => if valid_url s then Ok s else invalid loc "Input should be a valid URL"
  | _ => invalid loc "URL input should be a string or URL"
  end.

Definition validate_enum {E : Type} (members : list (string * E)) (loc : string)
  (r : raw) : result E :=
  match r with
  | RStr s =>
      match find (fun m => String.eqb (fst m) s) members with
      | Some m => Ok (snd m)
      | None => invalid loc "Input should be a member of the enumeration"
      end
  | _ => invalid loc "Input should be a member of the enumeration"
  end.

Fixpoint validate_each {A : Type} (validate : raw -> result A) (l : list raw)
  : result (list A) :=
  match l with
  | [] => Ok []
  | r :: rest =>
      bind (validate r) (fun a =>
      bind (validate_each validate rest) (fun rest' => Ok (a :: rest')))
  end.

(** A [list[...]] field takes a list; a dictionary, a string or a number is
    not converted to one. *)
Definition validate_list {A : Type} (validate : raw -> result A) (loc : string)
  (r : raw) : result (list A) :=
  match r with
  | RList l => validate_each validate l
  | _ => invalid loc "Input should be a valid list"
  end.

(** A model field takes a dictionary of the fields. *)
Definition validate_model {A : Type} (init : list (string * raw) -> result A)
  (loc : string) (r : raw) : result A :=
  match r with
  | RDict d => init d
  | _ => invalid loc "Input should be a valid dictionary or object to extract fields from"
  end.

(** [T | None] *)
Definition validate_nullable {A : Type} (validate : raw -> result A) (r : raw)
  : result (option A) :=
  match r with
  | RNone => Ok None
  | _ => bind (validate r) (fun a => Ok (Some a))
  end.

Definition required {A : Type} (field : string) (choices : list string)
  (validate : string -> raw -> result A) (data : list (string * raw))
  : result A :=
  match lookup_choices choices data with
  | Some r => validate field r
  | None => invalid field "Field required"
  end.

Definition defaulted {A : Type} (field : string) (choices : list string)
  (default : A) (validate : string -> raw -> result A)
  (data : list (string * raw)) : result A :=
  match lookup_choices choices data with
  | Some r => validate field r
  | None => Ok default
  end.

(** [class ThingName]: [name_type] has the explicit alias [@type]. *)
Record ThingName : Type := {
  ThingName_name_type : NameType.t;
  ThingName_value : string
}.

Definition ThingName_init (data : list (string * raw)) : result ThingName :=
  bind (required "name_type" ["@type"] (validate_enum NameType.members) data)
    (fun name_type =>
  bind (required "value" (alias_choices "value") validate_str data)
    (fun value =>
  Ok {| ThingName_name_type := name_type; ThingName_value := value |})).

(** [class Link] *)
Record Link : Type := {
  Link_id : Z;
  Link_link_type : LinkType.t;
  Link_value : string
}.

Definition Link_init (data : list (string * raw)) : result Link :=
  bind (required "id" (alias_choices "id") validate_int data) (fun id =>
  bind (required "link_type" ["@type"] (validate_enum LinkType.members) data)
    (fun link_type =>
  bind (required "value" (alias_choices "value") validate_str data)
    (fun value =>
  Ok {| Link_id := id; Link_link_type := link_type; Link_value := value |}))).

(** [class SimpleValue[int]] *)
Record SimpleValue : Type := { SimpleValue_value : Z }.

Definition SimpleValue_init (data : list (string * raw)) : result SimpleValue :=
  bind (required "value" (alias_choices "value") validate_int data)
    (fun value => Ok {| SimpleValue_value := value |}).

(** [class YearPublished]: [value: Annotated[int, AfterValidator(is_not_future)]].
    The field is validated as an [int], then the after-validator runs on the
    integer and what it returns is what the field holds. *)
Record YearPublished : Type := { YearPublished_value : option Z }.

Definition YearPublished_validate_value (loc : string) (r : raw)
  : result (option Z) :=
  bind (validate_int loc r) (fun v =>
  run_validator loc (is_not_future now_year (Some v))).

Definition YearPublished_init (data : list (string * raw))
  : result YearPublished :=
  bind (required "value" (alias_choices "value") YearPublished_validate_value data)
    (fun value => Ok {| YearPublished_value := value |}).

(** [class Thing].  The [link] collection is held as its wrapped list. *)
Record Thing : Type := {
  Thing_id : Z;
  Thing_thing_type : ThingType.t;
  Thing_description : string;
  Thing_thumbnail : string;
  Thing_image : string;
  Thing_name : list ThingName;
  Thing_year_published : option YearPublished;
  Thing_min_players : option SimpleValue;
  Thing_max_players : option SimpleValue;
  Thing_playing_time : option SimpleValue;
  Thing_min_play_time : option SimpleValue;
  Thing_min_age : option SimpleValue;
  Thing_link : list Link;
  Thing_poll : Polls
}.

(** [name: Annotated[list[ThingName], AfterValidator(not_empty)]] *)
Definition Thing_validate_name (loc : string) (r : raw)
  : result (list ThingName) :=
  bind (validate_list (validate_model ThingName_init loc) loc r) (fun names =>
  run_validator loc (not_empty names)).

Definition validate_simple_value (loc : string) (r : raw)
  : result (option SimpleValue) :=
  validate_nullable (validate_model SimpleValue_init loc) r.

Definition validate_year_published (loc : string) (r : raw)
  : result (option YearPublished) :=
  validate_nullable (validate_model YearPublished_init loc) r.

Definition validate_links (loc : string) (r : raw) : result (list Link) :=
  validate_list (validate_model Link_init loc) loc r.

(** [Thing] called with the keyword arguments [data] *)
Definition Thing_init (data : list (string * raw)) : result Thing :=
  bind (required "id" (alias_choices "id") validate_int data) (fun id =>
  bind (required "thing_type" ["@type"] (validate_enum ThingType.members) data)
    (fun thing_type =>
  bind (required "description" (alias_choices "description") validate_str data)
    (fun description =>
  bind (required "thumbnail" (alias_choices "thumbnail") validate_url data)
    (fun thumbnail =>
  bind (required "image" (alias_choices "image") validate_url data)
    (fun image =>
  bind (required "name" (alias_choices "name") Thing_validate_name data)
    (fun name =>
  bind (defaulted "year_published" (alias_choices "year_published") None
          validate_year_published data) (fun year_published =>
  bind (defaulted "min_players" (alias_choices "min_players") None
          validate_simple_value data) (fun min_players =>
  bind (defaulted "max_players" (alias_choices "max_players") None
          validate_simple_value data) (fun max_players =>
  bind (defaulted "playing_time" (alias_choices "playing_time") None
          validate_simple_value data) (fun playing_time =>
  bind (defaulted "min_play_time" (alias_choices "min_play_time") None
          validate_simple_value data) (fun min_play_time =>
  bind (defaulted "min_age" (alias_choices "min_age") None
          validate_simple_value data) (fun min_age =>
  bind (defaulted "link" (alias_choices "link") [] validate_links data)
    (fun link =>
  bind (defaulted "poll" (alias_choices "poll") no_polls
          (fun _ => validate_polls) data) (fun poll =>
  Ok {| Thing_id := id; Thing_thing_type := thing_type;
        Thing_description := description; Thing_thumbnail := thumbnail;
        Thing_image := image; Thing_name := name;
        Thing_year_published := year_published;
        Thing_min_players := min_players; Thing_max_players := max_players;
        Thing_playing_time := playing_time;
        Thing_min_play_time := min_play_time; Thing_min_age := min_age;
        Thing_link := link; Thing_poll := poll |})))))))))))))).

(** [ThingResponse.from_xml] after [xmltodict.parse]: the items of the
    parsed document, a single item being a bare dictionary. *)
Definition subscript (r : raw) (key : string) : result raw :=
  match r with
  | RDict d =>
      match lookup key d with
      | Some v => Ok v
      | None => Raise (KeyError key)
      end
  | _ => Raise (TypeError "object is not subscriptable with a string key")
  end.

Definition from_parsed (parsed : raw) : result (list Thing) :=
  bind (subscript parsed "items") (fun items =>
  bind (subscript items "item") (fun items_data =>
  let items_data :=
    match items_data with
    | RDict _ => RList [items_data]
    | _ => items_data
    end in
  match items_data with
  | RList l =>
      validate_each
        (fun item_data =>
           match item_data with
           | RDict d => Thing_init d
           | _ => Raise (TypeError "argument after ** must be a mapping")
           end) l
  | RStr EmptyString => Ok []
  | RStr _ => Raise (TypeError "argument after ** must be a mapping")
  | _ => Raise (TypeError "object is not iterable")
  end)).

End Validation.

End Models.

(** ** Sample data: values for the parameters of the validation and small
    collections to run the code on. *)

Module Sample.

Import PyObj Models.

(** Decimal digits, as a string-valued XML attribute carries an integer. *)
Fixpoint digits_to_Z (acc : Z) (s : string) : option Z :=
  match s with
  | EmptyString => Some acc
  | String c s' =>
      if is_digit_char c
      then digits_to_Z (10 * acc + Z.of_nat (nat_of_ascii c - 48)) s'
      else None
  end.

Definition decimal_int (s : string) : option Z :=
  match s with
  | EmptyString => None
  | _ => digits_to_Z 0 s
  end.

Definition http_url (s : string) : bool := String.prefix "http" s.

Definition polls_as_given (r : raw) : result (list raw) :=
  match r with
  | RList l => Ok l
  | _ => Raise (ValidationError "poll: Input should be a valid list")
  end.

Definition year_published_init : list (string * raw) -> result YearPublished :=
  YearPublished_init decimal_int 2026.

Definition thing_init : list (string * raw) -> result (Thing (list raw)) :=
  Thing_init decimal_int http_url 2026 (list raw) polls_as_given [].

Definition name_entry (kind text : string) : raw :=
  RDict [("@type", RStr kind); ("@value", RStr text)].

(** An item as the feed has it, but for the name. *)
Definition item_with_name (name : raw) : list (string * raw) :=
  [("@type", RStr "boardgame"); ("@id", RStr "1234");
   ("thumbnail", RStr "https://example.org/thumb.png");
   ("image", RStr "https://example.org/image.png");
   ("name", name);
   ("description", RStr "A game about bunnies.");
   ("yearpublished", RDict [("@value", RStr "2011")])].

Definition link (id : Z) (text : string) : pyobj :=
  PyModel "Link" [("id", PyInt id); ("link_type", PyStr "boardgamepublisher");
                  ("value", PyStr text)].

Definition links : Search.SearchBase :=
  {| Search.root := [link 1 "Piatnik"; link 2 "Playroom"; link 3 "playroom"] |}.

(** A record with a nested record and a missing ([None]) one. *)
Definition nested : pyobj :=
  PyModel "Thing"
    [("id", PyInt 7);
     ("year_published", PyNone);
     ("min_age", PyModel "SimpleValue" [("value", PyInt 8)])].

End Sample.

(** ** Indexing a Python list *)

Module PyList.

(** The position an index stands for: a negative index counts from the end,
    and an index outside [-len, len) stands for none. *)
Definition position {A : Type} (l : list A) (index : Z) : option nat :=
  let len := Z.of_nat (List.length l) in
  let i := (if index <? 0 then index + len else index)%Z in
  if ((i <? 0) || (len <=? i))%Z then None else Some (Z.to_nat i).

(** [l[index]] *)
Definition getitem {A : Type} (l : list A) (index : Z) : result A :=
  match position l index with
  | Some i =>
      match nth_error l i with
      | Some v => Ok v
      | None => Raise (IndexError "list index out of range")
      end
  | None => Raise (IndexError "list index out of range")
  end.

(** [l[index] = v], as the list it leaves *)
Definition setitem {A : Type} (l : list A) (index : Z) (v : A)
  : result (list A) :=
  match position l index with
  | Some i => Ok (firstn i l ++ v :: skipn (S i) l)%list
  | None => Raise (IndexError "list assignment index out of range")
  end.

End PyList.

(** ** by_path.py and pydantic.py, the remaining operations *)

Module PathOps.

(** [get_path_part] with the default separator *)
Definition get_path_part (path : string) (index : Z) : result string :=
  PyList.getitem (ByPath.path_as_parts path) index.

End PathOps.

Module SearchOps.

Section Operations.
Context {V : Type} `{PyData V}.

(** [SearchBase.__getitem__] with an integer index *)
Definition getitem (item : Z) : Method Search.SearchBase V :=
  fun self => (PyList.getitem (Search.root self) item, self).

(** [SearchBase.__setitem__] with an integer index: the assignment is to
    the wrapped list. *)
Definition setitem (key : Z) (value : V) : Method Search.SearchBase unit :=
  fun self =>
    match PyList.setitem (Search.root self) key value with
    | Ok l => (Ok tt, {| Search.root := l |})
    | Raise e => (Raise e, self)
    end.

(** [SearchBase.__iter__]: the elements in the order of the wrapped list *)
Definition iter (self : Search.SearchBase) : list V := Search.root self.

(** The operand of [+]: another collection, some other iterable with its
    elements in iteration order, or anything else. *)
Inductive operand : Type :=
| OtherSearchBase (other : @Search.SearchBase V)
| OtherIterable (items : list V)
| OtherObject.

(** [SearchBase.__add__] returns [self] or raises [NotImplementedError]. *)
Inductive outcome : Type :=
| ReturnsSelf
| RaisesNotImplementedError.

Definition add (other : operand) (self : Search.SearchBase)
  : outcome * Search.SearchBase :=
  match other with
  | OtherSearchBase o =>
      (ReturnsSelf, {| Search.root := Search.root self ++ Search.root o |}%list)
  | OtherIterable items =>
      (ReturnsSelf, {| Search.root := Search.root self ++ items |}%list)
  | OtherObject => (RaisesNotImplementedError, self)
  end.

End Operations.

End SearchOps.

(** ** Notions used to state the properties *)

(** A text without an underscore; a text of word characters. *)
Definition no_underscore (s : string) : bool :=
  forall_string (fun c => negb (Ascii.eqb c underscore)) s.

Definition is_word (s : string) : bool := forall_string is_word_char s.

(** A text of ASCII characters, on which [is_word_char], [upper] and [lower]
    are exactly the class [\w], [str.upper] and [str.lower]. *)
Definition is_ascii (s : string) : bool :=
  forall_string (fun c => (nat_of_ascii c <? 128)%nat) s.

(** The value reached from [current] along [names] when every attribute on
    the way exists and none of the values fetched is [None]. *)
Fixpoint reach {V : Type} `{PyData V} (current : V) (names : list string)
  : option V :=
  match names with
  | [] => Some current
  | name :: rest =>
      match py_getattr current name with
      | Some fetched => if py_is_None fetched then None else reach fetched rest
      | None => None
      end
  end.

(** The test of a predicate on an item, where it evaluates. *)
Definition satisfies {V : Type} `{PyData V} (lhs : ByPath.AttrPath) (rhs : V)
  (operator : Compare.Operators) (item : V) : bool :=
  match Search._compare item lhs rhs operator with
  | Ok b => b
  | Raise _ => false
  end.

(** The predicate evaluates on every element of a list: the path resolves
    and the operator applies. *)
Definition evaluates_on {V : Type} `{PyData V} (lhs : ByPath.AttrPath) (rhs : V)
  (operator : Compare.Operators) (items : list V) : Prop :=
  forall item, In item items ->
    exists b, Search._compare item lhs rhs operator = Ok b.

(** The path resolves on every element of a list. *)
Definition resolves_on {V : Type} `{PyData V} (lhs : ByPath.AttrPath)
  (items : list V) : Prop :=
  forall item, In item items ->
    exists value, Search.item_getattr_path item (ByPath.PathObj lhs) = Ok value.

(** A result that, when it is a failure, is a validation error. *)
Definition fails_as_validation {A : Type} (r : result A) : Prop :=
  forall e, r = Raise e -> exists msg, e = ValidationError msg.

(** A text without its first [n] characters. *)
Fixpoint drop (n : nat) (s : string) : string :=
  match n, s with
  | O, _ => s
  | S k, String _ s' => drop k s'
  | S _, EmptyString => EmptyString
  end.

(** [t] occurs in [s]. *)
Definition occurs_in (t s : string) : Prop := exists a b, s = a ++ t ++ b.

(** * Properties *)

(** ** Strings and the key pattern *)

Lemma append_nil_r (s : string) : s ++ "" = s.
Proof. induction s as [|c s IH]; simpl; [reflexivity | now rewrite IH]. Qed.

Lemma append_assoc (a b c : string) : (a ++ b) ++ c = a ++ (b ++ c).
Proof. induction a as [|x a IH]; simpl; [reflexivity | now rewrite IH]. Qed.

Lemma map_string_app (f : ascii -> ascii) (a b : string) :
  map_string f (a ++ b) = map_string f a ++ map_string f b.
Proof. induction a as [|x a IH]; simpl; [reflexivity | now rewrite IH]. Qed.

Lemma string_length_app (a b : string) :
  String.length (a ++ b) = (String.length a + String.length b)%nat.
Proof. induction a as [|x a IH]; simpl; [reflexivity | now rewrite IH]. Qed.

Lemma substring_all (s : string) : String.substring 0 (String.length s) s = s.
Proof. induction s as [|c s IH]; simpl; [reflexivity | now rewrite IH]. Qed.

Lemma substring_skip (a b : string) :
  String.substring (String.length a) (String.length b) (a ++ b) = b.
Proof.
  induction a as [|x a IH]; simpl.
  - apply substring_all.
  - exact IH.
Qed.

Lemma endswith_app (a b : string) : Py.endswith (a ++ b) b = true.
Proof.
  unfold Py.endswith. rewrite string_length_app.
  replace (String.length a + String.length b - String.length b)%nat
    with (String.length a) by lia.
  rewrite substring_skip, String.eqb_refl, andb_true_r.
  apply Nat.leb_le. lia.
Qed.

Lemma no_underscore_app_underscore (a b : string) :
  no_underscore (a ++ String underscore b) = false.
Proof.
  induction a as [|x a IH]; simpl.
  - reflexivity.
  - unfold no_underscore in *. simpl. rewrite IH. apply andb_false_r.
Qed.

(** A text that ends in an underscore-free [t] and is cut at an underscore
    has [t] at the end of what follows the cut. *)
Lemma tail_after_underscore (a t b g : string) :
  no_underscore t = true ->
  a ++ t = b ++ String underscore g ->
  exists q, g = q ++ t.
Proof.
  revert b. induction a as [|x a IH]; intros b Ht E; simpl in E.
  - subst t. rewrite no_underscore_app_underscore in Ht. discriminate.
  - destruct b as [|y b]; simpl in E.
    + injection E as _ E. exists a. now symmetry.
    + injection E as _ E. now apply (IH b).
Qed.

(** *** The matcher against the shape it recognises *)

Lemma match_token_sound (s t : string) :
  Search.match_token s = Some t ->
  t = s /\ s <> "" /\ no_underscore s = true.
Proof.
  revert t. induction s as [|c s IH]; intros t E; simpl in E.
  - discriminate.
  - destruct (Ascii.eqb c underscore) eqn:Ec; [discriminate|].
    unfold no_underscore; simpl; rewrite Ec; simpl.
    destruct (Search.match_token s) as [t'|] eqn:Et.
    + injection E as <-. destruct (IH t' eq_refl) as (-> & _ & Hs).
      repeat split; [discriminate | exact Hs].
    + destruct s as [|d [|e s]]; simpl in E; try discriminate.
      * injection E as <-. repeat split. discriminate.
      * simpl in Et. destruct (Ascii.eqb d underscore) eqn:Hd; [|discriminate].
        apply Ascii.eqb_eq in Hd. subst d. discriminate.
Qed.

Lemma match_token_complete (s : string) :
  s <> "" -> no_underscore s = true -> Search.match_token s = Some s.
Proof.
  induction s as [|c s IH]; intros Hne Hs; [congruence|].
  unfold no_underscore in Hs; simpl in Hs.
  apply andb_true_iff in Hs as [Hc Hs]. apply negb_true_iff in Hc.
  simpl. rewrite Hc.
  destruct s as [|d s].
  - reflexivity.
  - rewrite IH; [reflexivity | discriminate | exact Hs].
Qed.

Lemma match_pattern_no_underscore (s : string) :
  no_underscore s = true -> Search.match_pattern s = None.
Proof.
  induction s as [|c s IH]; intros Hs; [reflexivity|].
  unfold no_underscore in Hs; simpl in Hs.
  apply andb_true_iff in Hs as [Hc Hs].
  simpl. rewrite (IH Hs).
  destruct (is_word_char c); [|reflexivity].
  destruct s as [|u rest]; [reflexivity|].
  unfold no_underscore in Hs; simpl in Hs.
  apply andb_true_iff in Hs as [Hu _]. apply negb_true_iff in Hu.
  now rewrite Hu.
Qed.

Lemma match_pattern_sound (s g1 g2 : string) :
  Search.match_pattern s = Some (g1, g2) ->
  s = g1 ++ String underscore g2 /\ g1 <> "" /\ is_word g1 = true /\
  g2 <> "" /\ no_underscore g2 = true.
Proof.
  revert g1 g2. induction s as [|c s IH]; intros g1 g2 E; simpl in E.
  - discriminate.
  - destruct (is_word_char c) eqn:Hc; [|discriminate].
    destruct (Search.match_pattern s) as [[h1 h2]|] eqn:Em.
    + injection E as <- <-.
      destruct (IH h1 h2 eq_refl) as (-> & _ & Hw & Hn & Hu).
      repeat split; try assumption; [discriminate|].
      unfold is_word; simpl. now rewrite Hc.
    + destruct s as [|u rest]; [discriminate|].
      destruct (Ascii.eqb u underscore) eqn:Hu; [|discriminate].
      apply Ascii.eqb_eq in Hu. subst u.
      destruct (Search.match_token rest) as [t|] eqn:Et; [|discriminate].
      injection E as <- <-.
      destruct (match_token_sound _ _ Et) as (-> & Hn & Hnu).
      repeat split; try assumption; [discriminate|].
      unfold is_word; simpl. now rewrite Hc.
Qed.

Lemma match_pattern_complete (g1 g2 : string) :
  g1 <> "" -> is_word g1 = true -> g2 <> "" -> no_underscore g2 = true ->
  Search.match_pattern (g1 ++ String underscore g2) = Some (g1, g2).
Proof.
  intros Hne Hw Hn Hu. induction g1 as [|c g1 IH]; [congruence|].
  unfold is_word in Hw; simpl in Hw. apply andb_true_iff in Hw as [Hc Hw].
  simpl. rewrite Hc.
  destruct g1 as [|d g1].
  - simpl. rewrite (match_pattern_no_underscore g2 Hu).
    destruct g2 as [|e g2]; [congruence|].
    pose proof Hu as Hu'. unfold no_underscore in Hu'; simpl in Hu'.
    apply andb_true_iff in Hu' as [He _]. apply negb_true_iff in He.
    rewrite He.
    now rewrite (match_token_complete _ Hn Hu).
  - rewrite IH; [reflexivity | discriminate | exact Hw].
Qed.

(** *** The registry *)

Lemma Operators_getitem_name (op : Compare.Operators) :
  Compare.Operators_getitem (Compare.name op) = Ok op.
Proof. destruct op; reflexivity. Qed.

Lemma Operators_getitem_Ok (key : string) (op : Compare.Operators) :
  Compare.Operators_getitem key = Ok op -> Compare.name op = key.
Proof.
  unfold Compare.Operators_getitem.
  destruct (find _ Compare.members) as [m|] eqn:F; [|discriminate].
  intros [= <-]. apply find_some in F as [_ F]. now apply String.eqb_eq in F.
Qed.

Lemma Operators_getitem_unregistered (key : string) :
  (forall op, Compare.name op <> key) ->
  Compare.Operators_getitem key = Raise (KeyError key).
Proof.
  intros Hk. destruct (Compare.Operators_getitem key) as [op|e] eqn:E.
  - apply Operators_getitem_Ok in E. now destruct (Hk op).
  - unfold Compare.Operators_getitem in *.
    destruct (find _ Compare.members); [discriminate | now symmetry].
Qed.

(** No member's name ends in [IEXACT]. *)
Lemma no_name_ends_in_IEXACT (q : string) (op : Compare.Operators) :
  Compare.name op <> q ++ "IEXACT".
Proof.
  intros E. pose proof (endswith_app q "IEXACT") as S.
  rewrite <- E in S. destruct op; discriminate S.
Qed.

(** *** Decoding the predicate key *)

Section Decoding.
Context {V : Type} `{PyData V}.

Lemma split_lhs_Ok (key : string) (p : ByPath.AttrPath) (op : Compare.Operators) :
  Search._split_lhs key = Ok (p, op) <->
  exists g1 g2,
    key = g1 ++ String underscore g2 /\
    g1 <> "" /\ is_word g1 = true /\ g2 <> "" /\ no_underscore g2 = true /\
    p = ByPath.AttrPath_init g1 /\ upper g2 = Compare.name op.
Proof.
  unfold Search._split_lhs. split.
  - destruct (Search.match_pattern key) as [[g1 g2]|] eqn:M; [|discriminate].
    destruct (Compare.Operators_getitem (upper g2)) as [o|e] eqn:G;
      simpl; [|discriminate].
    intros [= <- <-]. apply Operators_getitem_Ok in G.
    destruct (match_pattern_sound _ _ _ M) as (K & A & B & C & D).
    exists g1, g2. repeat split; auto.
  - intros (g1 & g2 & -> & A & B & C & D & -> & U).
    rewrite (match_pattern_complete g1 g2 A B C D), U, Operators_getitem_name.
    reflexivity.
Qed.

Lemma split_lhs_ends_in_iexact (pre : string) :
  exists e, Search._split_lhs (pre ++ "iexact") = Raise e.
Proof.
  unfold Search._split_lhs.
  destruct (Search.match_pattern (pre ++ "iexact")) as [[g1 g2]|] eqn:M.
  - destruct (match_pattern_sound _ _ _ M) as (K & _).
    destruct (tail_after_underscore pre "iexact" g1 g2 eq_refl K) as [q ->].
    unfold upper. rewrite map_string_app.
    change (map_string upper_char "iexact") with "IEXACT".
    rewrite Operators_getitem_unregistered.
    + eexists; reflexivity.
    + intros op. apply no_name_ends_in_IEXACT.
  - eexists; reflexivity.
Qed.

(** A call whose key does not decode raises what [_split_lhs] raises and
    leaves the collection as it was. *)
Lemma filter_undecodable (key : string) (rhs : V) (e : exn) (c : Search.SearchBase) :
  Search._split_lhs key = Raise e ->
  Search.filter [(key, rhs)] c = (Raise e, c) /\
  Search.exclude [(key, rhs)] c = (Raise e, c).
Proof.
  intros E. unfold Search.filter, Search.exclude, mbind, lift,
    Search._get_compare_tuple. cbn. now rewrite E.
Qed.

End Decoding.

Lemma token_unique (a g b h : string) :
  no_underscore g = true -> no_underscore h = true ->
  a ++ String underscore g = b ++ String underscore h -> g = h.
Proof.
  intros Hg Hh E.
  assert (E1 : (a ++ String underscore "") ++ g = b ++ String underscore h)
    by (rewrite append_assoc; exact E).
  assert (E2 : (b ++ String underscore "") ++ h = a ++ String underscore g)
    by (rewrite append_assoc; symmetry; exact E).
  destruct (tail_after_underscore _ _ _ _ Hg E1) as [q Q].
  destruct (tail_after_underscore _ _ _ _ Hh E2) as [r R].
  assert (L : String.length q = 0%nat).
  { apply (f_equal String.length) in Q, R. rewrite string_length_app in Q, R. lia. }
  destruct q; [now rewrite Q | discriminate L].
Qed.

(** C1, as the claim states it, fails on the example key of the claim:
    [name__value_iexact] is cut into the path [name__value] and the token
    [iexact], but [IEXACT] is not a member of [Operators] and nothing maps it
    onto [IEQUAL]: the lookup raises [KeyError]. *)
Lemma iexact_is_not_registered :
  Search._split_lhs "name__value_iexact" = Raise (KeyError "IEXACT") /\
  ~ (exists p, Search._split_lhs "name__value_iexact" = Ok (p, Compare.IEQUAL)) /\
  Search.filter [("name__value_iexact", PyObj.PyStr "x")] Sample.links
  = (Raise (KeyError "IEXACT"), Sample.links).
Proof.
  split; [reflexivity|]. split; [|reflexivity].
  intros [p E]. discriminate E.
Qed.

(** C1 (amended): a predicate key is decoded by taking everything up to the
    last underscore as the attribute path and the trailing token, in upper
    case, as the name of the operator, which is looked up among the names of
    the fourteen members only.  The key [name__value_iexact] gives the path
    segments [name], [value] and the name [IEXACT], which is no member: the
    lookup raises [KeyError], and so does every [filter] or [exclude] call
    whose key ends in [iexact], leaving the collection as it was; the key
    [name__value_iequal] gives the member [IEQUAL].  A key of ASCII
    characters decodes exactly when it is a non-empty word, an underscore and
    a non-empty underscore-free token whose upper case is the name of a
    member, and every call whose trailing token is an ASCII text that is not,
    in upper case, the name of a member fails. *)
Theorem key_decoding :
  (Search.match_pattern "name__value_iexact" = Some ("name__value", "iexact") /\
   ByPath.parts (ByPath.str_to_path (ByPath.PathStr "name__value"))
   = ["name"; "value"] /\
   Search._split_lhs "name__value_iexact" = Raise (KeyError "IEXACT") /\
   Search._split_lhs "name__value_iequal"
   = Ok (ByPath.AttrPath_init "name__value", Compare.IEQUAL)) /\
  (forall (V : Type) (D : PyData V) (pre : string) (rhs : V)
          (c : Search.SearchBase),
      exists e,
        Search.filter [(pre ++ "iexact", rhs)] c = (Raise e, c) /\
        Search.exclude [(pre ++ "iexact", rhs)] c = (Raise e, c)) /\
  (forall (key : string) (p : ByPath.AttrPath) (op : Compare.Operators),
      is_ascii key = true ->
      (Search._split_lhs key = Ok (p, op) <->
       exists g1 g2,
         key = g1 ++ String underscore g2 /\
         g1 <> "" /\ is_word g1 = true /\ g2 <> "" /\ no_underscore g2 = true /\
         p = ByPath.AttrPath_init g1 /\ upper g2 = Compare.name op)) /\
  (forall (V : Type) (D : PyData V) (g1 g2 : string) (rhs : V)
          (c : Search.SearchBase),
      is_ascii g2 = true ->
      no_underscore g2 = true ->
      (forall op, Compare.name op <> upper g2) ->
      exists e,
        Search.filter [(g1 ++ String underscore g2, rhs)] c = (Raise e, c) /\
        Search.exclude [(g1 ++ String underscore g2, rhs)] c = (Raise e, c)).
Proof.
  split; [repeat split|]. split; [|split].
  - intros V D pre rhs c. destruct (split_lhs_ends_in_iexact pre) as [e E].
    exists e. now apply filter_undecodable.
  - intros key p op _. apply split_lhs_Ok.
  - intros V D g1 g2 rhs c _ Hu Hn.
    destruct (Search._split_lhs (g1 ++ String underscore g2)) as [[p op]|e] eqn:E.
    + apply split_lhs_Ok in E as (h1 & h2 & K & _ & _ & _ & Hh & _ & U).
      apply (token_unique _ _ _ _ Hu Hh) in K. subst h2.
      now destruct (Hn op).
    + exists e. now apply filter_undecodable.
Qed.

Lemma key_decoding_witness :
  is_ascii "like" = true /\
  no_underscore "like" = true /\
  (forall op, Compare.name op <> upper "like") /\
  exists e,
    Search.filter [("id" ++ String underscore "like", PyObj.PyInt 1)] Sample.links
    = (Raise e, Sample.links) /\
    Search.exclude [("id" ++ String underscore "like", PyObj.PyInt 1)] Sample.links
    = (Raise e, Sample.links).
Proof.
  assert (N : forall op, Compare.name op <> upper "like")
    by (intros op; destruct op; discriminate).
  split; [reflexivity|]. split; [reflexivity|]. split; [exact N|].
  exact (proj2 (proj2 (proj2 key_decoding)) _ _ "id" "like" (PyObj.PyInt 1)
               Sample.links eq_refl eq_refl N).
Defined.

(** ** Attribute paths *)

Section Resolution.
Context {V : Type} `{PyData V}.

Lemma getattr_loop_reach (obj : V) (path : ByPath.path_arg) (default : option V)
  (pre rest : list string) (current v : V) :
  reach current pre = Some v ->
  ByPath.getattr_loop obj path default (pre ++ rest)%list current
  = ByPath.getattr_loop obj path default rest v.
Proof.
  revert current. induction pre as [|name pre IH]; intros current R; simpl in R.
  - now injection R as ->.
  - destruct (py_getattr current name) as [fetched|] eqn:G; [|discriminate].
    destruct (py_is_None fetched) eqn:N; [discriminate|].
    simpl. rewrite G, N. destruct default; now apply IH.
Qed.

Lemma no_path_msg_occurs (obj : V) (path : ByPath.path_arg) (inner : string) :
  occurs_in (ByPath.path_text path) (ByPath.no_path_msg obj path inner) /\
  occurs_in (py_type_name obj) (ByPath.no_path_msg obj path inner).
Proof.
  unfold ByPath.no_path_msg, occurs_in. split.
  - exists ("'" ++ py_type_name obj ++ "' object has no attribute path '"),
      ("', since " ++ inner).
    now rewrite !append_assoc.
  - exists "'", ("' object has no attribute path '"
                   ++ ByPath.path_text path ++ "', since " ++ inner).
    reflexivity.
Qed.

(** C6: [getattr_path] on the empty string returns the object itself; as
    soon as a value fetched along the path is [None] the result is [None],
    whatever segments follow and whether or not a default was given; when an
    attribute is absent, the call raises [AttributeError] with a text that
    contains the full path and the name of the type of the root object if no
    default was given, and returns the default if one was. *)
Theorem getattr_path_resolution :
  (forall (obj : V) (default : option V),
      ByPath.getattr_path obj (ByPath.PathStr "") default = Ok obj) /\
  (forall (obj : V) (path : ByPath.path_arg) (default : option V)
          (pre : list string) (name : string) (post : list string)
          (v fetched : V),
      ByPath.is_empty_str path = false ->
      ByPath.parts (ByPath.str_to_path path) = (pre ++ name :: post)%list ->
      reach obj pre = Some v ->
      py_getattr v name = Some fetched ->
      py_is_None fetched = true ->
      ByPath.getattr_path obj path default = Ok py_None) /\
  (forall (obj : V) (path : ByPath.path_arg)
          (pre : list string) (name : string) (post : list string) (v : V),
      ByPath.is_empty_str path = false ->
      ByPath.parts (ByPath.str_to_path path) = (pre ++ name :: post)%list ->
      reach obj pre = Some v ->
      py_getattr v name = None ->
      (exists msg,
          ByPath.getattr_path obj path None = Raise (AttributeError msg) /\
          occurs_in (ByPath.path_text path) msg /\
          occurs_in (py_type_name obj) msg) /\
      (forall d : V, ByPath.getattr_path obj path (Some d) = Ok d)).
Proof.
  split; [reflexivity|]. split.
  - intros obj path default pre name post v fetched E P R G N.
    unfold ByPath.getattr_path. rewrite E.
    unfold ByPath.parts in P. rewrite P.
    rewrite (getattr_loop_reach _ _ _ _ _ _ _ R). simpl. rewrite G, N.
    now destruct default.
  - intros obj path pre name post v E P R G.
    unfold ByPath.getattr_path. rewrite E.
    unfold ByPath.parts in P. rewrite P. split.
    + rewrite (getattr_loop_reach _ _ _ _ _ _ _ R). simpl. rewrite G.
      eexists. split; [reflexivity|]. apply no_path_msg_occurs.
    + intros d. rewrite (getattr_loop_reach _ _ _ _ _ _ _ R). simpl.
      now rewrite G.
Qed.

End Resolution.

Lemma getattr_path_resolution_witness :
  ByPath.getattr_path Sample.nested
    (ByPath.PathStr "year_published__value__real") None = Ok PyObj.PyNone /\
  (exists msg,
      ByPath.getattr_path Sample.nested (ByPath.PathStr "min_age__nope__x") None
      = Raise (AttributeError msg) /\
      occurs_in "min_age__nope__x" msg /\ occurs_in "Thing" msg) /\
  ByPath.getattr_path Sample.nested (ByPath.PathStr "min_age__nope__x")
    (Some (PyObj.PyInt 0)) = Ok (PyObj.PyInt 0).
Proof.
  split; [|split].
  - exact (proj1 (proj2 getattr_path_resolution) Sample.nested
             (ByPath.PathStr "year_published__value__real") None
             [] "year_published" ["value"; "real"] Sample.nested PyObj.PyNone
             eq_refl eq_refl eq_refl eq_refl eq_refl).
  - exact (proj1 (proj2 (proj2 getattr_path_resolution) Sample.nested
             (ByPath.PathStr "min_age__nope__x")
             ["min_age"] "nope" ["x"]
             (PyObj.PyModel "SimpleValue" [("value", PyObj.PyInt 8)])
             eq_refl eq_refl eq_refl eq_refl)).
  - exact (proj2 (proj2 (proj2 getattr_path_resolution) Sample.nested
             (ByPath.PathStr "min_age__nope__x")
             ["min_age"] "nope" ["x"]
             (PyObj.PyModel "SimpleValue" [("value", PyObj.PyInt 8)])
             eq_refl eq_refl eq_refl eq_refl) (PyObj.PyInt 0)).
Defined.

(** ** Popping segments *)

Lemma split_from_not_nil (sep : string) (s : string) (skip : nat) (cur : string) :
  split_from sep skip cur s <> [].
Proof.
  revert skip cur. induction s as [|c s IH]; intros skip cur; cbn [split_from].
  - discriminate.
  - destruct skip as [|k]; [|apply IH].
    destruct (String.prefix sep (String c s)); [discriminate | apply IH].
Qed.

Lemma AttrPath_init_parts_not_nil (s : string) :
  ByPath._parts (ByPath.AttrPath_init s) <> [].
Proof. apply split_from_not_nil. Qed.

Lemma rotate_length {A : Type} (n : Z) (d : list A) :
  List.length (rotate n d) = List.length d.
Proof.
  unfold rotate. destruct d as [|x d]; [reflexivity|].
  set (k := Z.to_nat _). generalize (x :: d). intros l.
  rewrite List.length_app, length_skipn, length_firstn. lia.
Qed.

Lemma rotate_one_snoc {A : Type} (init : list A) (x : A) :
  rotate 1 (init ++ [x])%list = x :: init.
Proof.
  unfold rotate.
  destruct (init ++ [x])%list as [|y l] eqn:E.
  { now destruct init. }
  rewrite <- E. clear E y l.
  rewrite List.length_app. simpl List.length.
  destruct init as [|a init].
  - reflexivity.
  - assert (M : (1 mod Z.of_nat (List.length (a :: init) + 1) = 1)%Z).
    { apply Z.mod_small. simpl List.length. lia. }
    rewrite M.
    replace (Z.to_nat (Z.of_nat (List.length (a :: init) + 1) - 1))
      with (List.length (a :: init)) by lia.
    rewrite skipn_app, firstn_app, skipn_all, firstn_all, Nat.sub_diag.
    simpl. now rewrite app_nil_r.
Qed.

Lemma set_parts_same (p : ByPath.AttrPath) :
  ByPath.set_parts p (ByPath._parts p) = p.
Proof. now destruct p. Qed.

Lemma popleft_cons (p : ByPath.AttrPath) (x : string) (rest : list string) :
  ByPath._parts p = x :: rest ->
  ByPath.popleft p = (Ok x, ByPath.set_parts p rest).
Proof. intros E. unfold ByPath.popleft. now rewrite E. Qed.

Lemma pop_default_snoc (p : ByPath.AttrPath) (init : list string) (x : string) :
  ByPath._parts p = (init ++ [x])%list ->
  ByPath.pop_default p = (Ok x, ByPath.set_parts p (rotate (-1) init)).
Proof.
  intros E. unfold ByPath.pop_default, ByPath.pop. rewrite E.
  change (- -1)%Z with 1%Z. now rewrite rotate_one_snoc.
Qed.

Lemma pop_empty (p : ByPath.AttrPath) :
  ByPath._parts p = [] ->
  ByPath.popleft p = (Raise (IndexError "pop from an empty deque"), p) /\
  ByPath.pop_default p = (Raise (IndexError "pop from an empty deque"), p).
Proof.
  intros E. unfold ByPath.popleft, ByPath.pop_default, ByPath.pop.
  rewrite E. simpl. rewrite <- E, set_parts_same. now split.
Qed.

(** C9, as the claim states it, fails for the path built from the empty
    string: its deque holds one segment, the empty string, and the first pop
    at either end returns that segment instead of raising. *)
Lemma first_pop_on_empty_string_returns :
  ByPath.popleft (ByPath.AttrPath_init "")
  = (Ok "", ByPath.set_parts (ByPath.AttrPath_init "") []) /\
  ByPath.pop_default (ByPath.AttrPath_init "")
  = (Ok "", ByPath.set_parts (ByPath.AttrPath_init "") []) /\
  ~ (exists e, fst (ByPath.popleft (ByPath.AttrPath_init "")) = Raise e) /\
  ~ (exists e, fst (ByPath.pop_default (ByPath.AttrPath_init "")) = Raise e).
Proof.
  split; [reflexivity|]. split; [reflexivity|].
  split; intros [e E]; cbv in E; discriminate E.
Qed.

(** C9 (amended): [popleft()] removes and returns the first segment and
    [pop()] returns the last segment and leaves one segment fewer; both raise
    [IndexError] when the deque of segments is empty and leave it empty.  A
    path built from a string, the empty string included, has at least one
    segment, so the first pop on it never fails: on the path built from the
    empty string it returns the empty segment, and it is the second pop that
    raises. *)
Theorem pop_segments :
  (forall (p : ByPath.AttrPath) (x : string) (rest : list string),
      ByPath._parts p = x :: rest ->
      ByPath.popleft p = (Ok x, ByPath.set_parts p rest)) /\
  (forall (p : ByPath.AttrPath) (init : list string) (x : string),
      ByPath._parts p = (init ++ [x])%list ->
      exists p',
        ByPath.pop_default p = (Ok x, p') /\
        ByPath.depth p' = List.length init) /\
  (forall p : ByPath.AttrPath,
      ByPath._parts p = [] ->
      ByPath.popleft p = (Raise (IndexError "pop from an empty deque"), p) /\
      ByPath.pop_default p = (Raise (IndexError "pop from an empty deque"), p)) /\
  (forall s : string,
      (exists x p', ByPath.popleft (ByPath.AttrPath_init s) = (Ok x, p')) /\
      (exists x p', ByPath.pop_default (ByPath.AttrPath_init s) = (Ok x, p'))) /\
  (let emptied := ByPath.set_parts (ByPath.AttrPath_init "") [] in
   ByPath.popleft (ByPath.AttrPath_init "") = (Ok "", emptied) /\
   ByPath.pop_default (ByPath.AttrPath_init "") = (Ok "", emptied) /\
   ByPath.popleft emptied
   = (Raise (IndexError "pop from an empty deque"), emptied) /\
   ByPath.pop_default emptied
   = (Raise (IndexError "pop from an empty deque"), emptied)).
Proof.
  split; [exact popleft_cons|]. split; [|split; [exact pop_empty|split]].
  - intros p init x E. eexists. split; [apply (pop_default_snoc p init x E)|].
    unfold ByPath.depth. simpl. apply rotate_length.
  - intros s. pose proof (AttrPath_init_parts_not_nil s) as N. split.
    + destruct (ByPath._parts (ByPath.AttrPath_init s)) as [|x rest] eqn:E;
        [congruence|].
      eexists _, _. apply (popleft_cons _ _ _ E).
    + destruct (exists_last N) as (init & x & E).
      eexists _, _. apply (pop_default_snoc _ _ _ E).
  - repeat split.
Qed.

Lemma pop_segments_witness :
  ByPath._parts (ByPath.AttrPath_init "a__b") = ["a"; "b"] /\
  ByPath.popleft (ByPath.AttrPath_init "a__b")
  = (Ok "a", ByPath.set_parts (ByPath.AttrPath_init "a__b") ["b"]).
Proof.
  split; [reflexivity|].
  exact (proj1 pop_segments (ByPath.AttrPath_init "a__b") "a" ["b"] eq_refl).
Defined.

(** What [pop()] leaves behind is rotated: rotating back by [index] after
    the pop undoes the first rotation only for a non-negative [index]. *)
Example pop_default_rotates_the_rest :
  ByPath.pop_default (ByPath.AttrPath_init "a__b__c")
  = (Ok "c", ByPath.set_parts (ByPath.AttrPath_init "a__b__c") ["b"; "a"]).
Proof. reflexivity. Qed.

(** ** The searchable collection *)

Section Collection.
Context {V : Type} `{PyData V}.

Lemma comprehension_filter (keep : V -> result bool) (p : V -> bool)
  (items : list V) :
  (forall item, In item items -> keep item = Ok (p item)) ->
  Search.comprehension keep items = Ok (List.filter p items).
Proof.
  induction items as [|item items IH]; intros K; simpl.
  - reflexivity.
  - rewrite (K item (or_introl eq_refl)). simpl.
    rewrite IH by (intros i I; apply K; now right). simpl.
    now destruct (p item).
Qed.

Lemma evaluates_satisfies (lhs : ByPath.AttrPath) (rhs : V)
  (op : Compare.Operators) (items : list V) :
  evaluates_on lhs rhs op items ->
  forall item, In item items ->
    Search._compare item lhs rhs op = Ok (satisfies lhs rhs op item).
Proof.
  intros E item I. destruct (E item I) as [b B].
  unfold satisfies. now rewrite B.
Qed.

Lemma evaluates_on_filter (lhs : ByPath.AttrPath) (rhs : V)
  (op : Compare.Operators) (p : V -> bool) (items : list V) :
  evaluates_on lhs rhs op items ->
  evaluates_on lhs rhs op (List.filter p items).
Proof.
  intros E item I. apply filter_In in I as [I _]. now apply E.
Qed.

(** [filter] and [exclude], run: the keyword is decoded, the elements are
    tested, and only then is the list replaced. *)
Lemma filter_run (kwargs : list (string * V)) (c : Search.SearchBase) :
  Search.filter kwargs c =
  match Search._get_compare_tuple kwargs with
  | Raise e => (Raise e, c)
  | Ok (lhs, rhs, op) =>
      match Search.comprehension
              (fun item => Search._compare item lhs rhs op) (Search.root c) with
      | Raise e => (Raise e, c)
      | Ok kept => (Ok tt, {| Search.root := kept |})
      end
  end.
Proof.
  unfold Search.filter, mbind, lift, read, Search.set_root.
  destruct (Search._get_compare_tuple kwargs) as [[[lhs rhs] op]|e];
    [|reflexivity].
  now destruct (Search.comprehension _ _).
Qed.

Lemma exclude_run (kwargs : list (string * V)) (c : Search.SearchBase) :
  Search.exclude kwargs c =
  match Search._get_compare_tuple kwargs with
  | Raise e => (Raise e, c)
  | Ok (lhs, rhs, op) =>
      match Search.comprehension
              (fun item => map_result negb (Search._compare item lhs rhs op))
              (Search.root c) with
      | Raise e => (Raise e, c)
      | Ok kept => (Ok tt, {| Search.root := kept |})
      end
  end.
Proof.
  unfold Search.exclude, mbind, lift, read, Search.set_root.
  destruct (Search._get_compare_tuple kwargs) as [[[lhs rhs] op]|e];
    [|reflexivity].
  now destruct (Search.comprehension _ _).
Qed.

Lemma filter_keeps_satisfying (kwargs : list (string * V))
  (c : Search.SearchBase) (lhs : ByPath.AttrPath) (rhs : V)
  (op : Compare.Operators) :
  Search._get_compare_tuple kwargs = Ok (lhs, rhs, op) ->
  evaluates_on lhs rhs op (Search.root c) ->
  Search.filter kwargs c
  = (Ok tt, {| Search.root := List.filter (satisfies lhs rhs op) (Search.root c) |}).
Proof.
  intros T E. rewrite filter_run, T.
  now rewrite (comprehension_filter _ (satisfies lhs rhs op) _
                 (evaluates_satisfies _ _ _ _ E)).
Qed.

Lemma exclude_keeps_failing (kwargs : list (string * V))
  (c : Search.SearchBase) (lhs : ByPath.AttrPath) (rhs : V)
  (op : Compare.Operators) :
  Search._get_compare_tuple kwargs = Ok (lhs, rhs, op) ->
  evaluates_on lhs rhs op (Search.root c) ->
  Search.exclude kwargs c
  = (Ok tt, {| Search.root :=
                 List.filter (fun item => negb (satisfies lhs rhs op item))
                             (Search.root c) |}).
Proof.
  intros T E. rewrite exclude_run, T.
  rewrite (comprehension_filter _ (fun item => negb (satisfies lhs rhs op item))).
  - reflexivity.
  - intros item I. now rewrite (evaluates_satisfies _ _ _ _ E item I).
Qed.

Lemma filter_negb_filter (p : V -> bool) (items : list V) :
  List.filter (fun item => negb (p item)) (List.filter p items) = [].
Proof.
  induction items as [|item items IH]; simpl; [reflexivity|].
  destruct (p item) eqn:P; simpl; [now rewrite P|exact IH].
Qed.

Lemma get_run (default : V) (kwargs : list (string * V))
  (c : Search.SearchBase) (lhs : ByPath.AttrPath) (rhs : V)
  (op : Compare.Operators) :
  Search._get_compare_tuple kwargs = Ok (lhs, rhs, op) ->
  evaluates_on lhs rhs op (Search.root c) ->
  Search.get default kwargs c
  = (Ok match List.filter (satisfies lhs rhs op) (Search.root c) with
        | [x] => x
        | _ => default
        end,
     {| Search.root := List.filter (satisfies lhs rhs op) (Search.root c) |}).
Proof.
  intros T E. unfold Search.get, mbind at 1.
  rewrite (filter_keeps_satisfying _ _ _ _ _ T E).
  unfold Search.len, Search.getitem, mbind, read, ret. simpl.
  now destruct (List.filter _ _) as [|x [|y l]].
Qed.

Lemma comprehension_Ok_all (keep : V -> result bool) (items kept : list V) :
  Search.comprehension keep items = Ok kept ->
  forall item, In item items -> exists b, keep item = Ok b.
Proof.
  revert kept. induction items as [|x items IH]; intros kept C item I.
  - destruct I.
  - simpl in C. destruct (keep x) as [b|e] eqn:K; [|discriminate]. simpl in C.
    destruct (Search.comprehension keep items) as [l|e] eqn:R; [|discriminate].
    destruct I as [<-|I]; [now exists b | now apply (IH l)].
Qed.

(** C7: when the predicate evaluates on the elements, [get] returns the
    element that satisfies it if there is exactly one, and the default both if
    there is none and if there are two or more; it raises in none of these
    cases. *)
Theorem get_unique_or_default (default : V) (kwargs : list (string * V))
  (c : Search.SearchBase) (lhs : ByPath.AttrPath) (rhs : V)
  (op : Compare.Operators) :
  Search._get_compare_tuple kwargs = Ok (lhs, rhs, op) ->
  evaluates_on lhs rhs op (Search.root c) ->
  let matching := List.filter (satisfies lhs rhs op) (Search.root c) in
  (forall x, matching = [x] -> fst (Search.get default kwargs c) = Ok x) /\
  (matching = [] -> fst (Search.get default kwargs c) = Ok default) /\
  (2 <= List.length matching -> fst (Search.get default kwargs c) = Ok default).
Proof.
  intros T E matching. rewrite (get_run default _ _ _ _ _ T E). fold matching.
  simpl. repeat split.
  - now intros x ->.
  - now intros ->.
  - destruct matching as [|x [|y l]]; simpl; intros L; try lia. reflexivity.
Qed.

(** C2 (amended): [get] runs the in-place [filter] on the collection itself,
    not on a copy.  After a call whose predicate evaluates on the elements the
    wrapped list holds exactly the elements that satisfy the predicate, in
    their order: those that matched are still there, those that did not are
    gone.  A call that raises leaves the wrapped list as it was. *)
Theorem get_filters_in_place (default : V) (kwargs : list (string * V))
  (c : Search.SearchBase) :
  (forall (lhs : ByPath.AttrPath) (rhs : V) (op : Compare.Operators),
      Search._get_compare_tuple kwargs = Ok (lhs, rhs, op) ->
      evaluates_on lhs rhs op (Search.root c) ->
      Search.root (snd (Search.get default kwargs c))
      = List.filter (satisfies lhs rhs op) (Search.root c)) /\
  (forall (e : exn) (c' : Search.SearchBase),
      Search.get default kwargs c = (Raise e, c') -> c' = c).
Proof.
  split.
  - intros lhs rhs op T E. now rewrite (get_run default _ _ _ _ _ T E).
  - intros e c'. unfold Search.get, mbind at 1. rewrite filter_run.
    destruct (Search._get_compare_tuple kwargs) as [[[lhs rhs] op]|e0].
    + destruct (Search.comprehension _ _) as [kept|e1].
      * unfold Search.len, Search.getitem, mbind, read, ret, raise. simpl.
        destruct kept as [|x [|y l]]; simpl; discriminate.
      * now intros [= _ <-].
    + now intros [= _ <-].
Qed.

(** Where the predicate evaluates on the elements of a collection,
    [filter] with it and then [exclude] with the same predicate both return
    and leave the collection empty. *)
Theorem filter_then_exclude_is_empty (kwargs : list (string * V))
  (c : Search.SearchBase) (lhs : ByPath.AttrPath) (rhs : V)
  (op : Compare.Operators) :
  Search._get_compare_tuple kwargs = Ok (lhs, rhs, op) ->
  evaluates_on lhs rhs op (Search.root c) ->
  exists c1,
    Search.filter kwargs c = (Ok tt, c1) /\
    Search.exclude kwargs c1 = (Ok tt, {| Search.root := [] |}).
Proof.
  intros T E. eexists. split.
  - apply (filter_keeps_satisfying _ _ _ _ _ T E).
  - rewrite (exclude_keeps_failing _ _ _ _ _ T).
    + simpl. now rewrite filter_negb_filter.
    + simpl. now apply evaluates_on_filter.
Qed.

(** C10: a [filter] or [exclude] call that raises leaves the wrapped list
    as it was.  This covers a key that does not have the expected shape
    ([ValueError]), a token that is not the name of an operator
    ([KeyError]), and a path that does not resolve on some element: each of
    them makes the call raise. *)
Theorem failed_call_leaves_collection :
  (forall (kwargs : list (string * V)) (c c' : Search.SearchBase) (e : exn),
      Search.filter kwargs c = (Raise e, c') \/
      Search.exclude kwargs c = (Raise e, c') ->
      c' = c) /\
  (forall (key : string) (rhs : V) (c : Search.SearchBase),
      Search.match_pattern key = None ->
      Search.filter [(key, rhs)] c
      = (Raise (ValueError ("invalid path: " ++ key)), c) /\
      Search.exclude [(key, rhs)] c
      = (Raise (ValueError ("invalid path: " ++ key)), c)) /\
  (forall (key g1 g2 : string) (rhs : V) (c : Search.SearchBase),
      Search.match_pattern key = Some (g1, g2) ->
      (forall op, Compare.name op <> upper g2) ->
      Search.filter [(key, rhs)] c = (Raise (KeyError (upper g2)), c) /\
      Search.exclude [(key, rhs)] c = (Raise (KeyError (upper g2)), c)) /\
  (forall (kwargs : list (string * V)) (c : Search.SearchBase)
          (lhs : ByPath.AttrPath) (rhs : V) (op : Compare.Operators)
          (item : V) (e : exn),
      Search._get_compare_tuple kwargs = Ok (lhs, rhs, op) ->
      In item (Search.root c) ->
      Search.item_getattr_path item (ByPath.PathObj lhs) = Raise e ->
      (exists e1, Search.filter kwargs c = (Raise e1, c)) /\
      (exists e2, Search.exclude kwargs c = (Raise e2, c))).
Proof.
  split; [|split; [|split]].
  - intros kwargs c c' e. rewrite filter_run, exclude_run.
    destruct (Search._get_compare_tuple kwargs) as [[[lhs rhs] op]|e0].
    + destruct (Search.comprehension _ _); destruct (Search.comprehension _ _);
        intros [F|F]; congruence.
    + intros [F|F]; congruence.
  - intros key rhs c M. apply filter_undecodable.
    unfold Search._split_lhs. now rewrite M.
  - intros key g1 g2 rhs c M N. apply filter_undecodable.
    unfold Search._split_lhs. rewrite M.
    now rewrite (Operators_getitem_unregistered _ N).
  - intros kwargs c lhs rhs op item e T I G.
    rewrite filter_run, exclude_run, T. split.
    + destruct (Search.comprehension _ _) as [kept|e1] eqn:C; [|now exists e1].
      destruct (comprehension_Ok_all _ _ _ C item I) as [b B].
      unfold Search._compare in B. rewrite G in B. discriminate B.
    + destruct (Search.comprehension _ _) as [kept|e1] eqn:C; [|now exists e1].
      destruct (comprehension_Ok_all _ _ _ C item I) as [b B].
      unfold Search._compare in B. rewrite G in B. discriminate B.
Qed.

End Collection.

(** ** Filter, then exclude, where the path resolves *)

Section PathResolves.
Context {V : Type} `{PyData V}.

Lemma comprehension_Raise_some (keep : V -> result bool) (items : list V)
  (e : exn) :
  Search.comprehension keep items = Raise e ->
  exists item, In item items /\ keep item = Raise e.
Proof.
  induction items as [|x items IH]; simpl; [discriminate|].
  destruct (keep x) as [b|e0] eqn:K; simpl.
  - destruct (Search.comprehension keep items) as [kept|e1]; simpl;
      [discriminate|].
    intros [= <-]. destruct (IH eq_refl) as (item & I & R).
    exists item. split; [now right | exact R].
  - intros [= <-]. exists x. split; [now left | exact K].
Qed.

(** C8 (amended): for a predicate that decodes and whose path resolves on
    all elements of the collection: if the operator returns on the value of
    every element, [filter] and then [exclude] with the identical predicate
    both return and leave the collection empty; if the operator raises on the
    value of some element, [filter] raises the exception of the operator on an
    element and leaves the collection as it was, not empty. *)
Theorem filter_then_exclude_where_path_resolves (kwargs : list (string * V))
  (c : Search.SearchBase) (lhs : ByPath.AttrPath) (rhs : V)
  (op : Compare.Operators) :
  Search._get_compare_tuple kwargs = Ok (lhs, rhs, op) ->
  resolves_on lhs (Search.root c) ->
  ((forall item value,
       In item (Search.root c) ->
       Search.item_getattr_path item (ByPath.PathObj lhs) = Ok value ->
       exists b, Compare.evaluate op value rhs = Ok b) ->
   exists c1,
     Search.filter kwargs c = (Ok tt, c1) /\
     Search.exclude kwargs c1 = (Ok tt, {| Search.root := [] |})) /\
  (forall item value e,
      In item (Search.root c) ->
      Search.item_getattr_path item (ByPath.PathObj lhs) = Ok value ->
      Compare.evaluate op value rhs = Raise e ->
      exists e' item' value',
        Search.filter kwargs c = (Raise e', c) /\
        In item' (Search.root c) /\
        Search.item_getattr_path item' (ByPath.PathObj lhs) = Ok value' /\
        Compare.evaluate op value' rhs = Raise e').
Proof.
  intros T R. split.
  - intros O. apply (filter_then_exclude_is_empty kwargs c lhs rhs op T).
    intros item I. destruct (R item I) as [value G].
    destruct (O item value I G) as [b B]. exists b.
    unfold Search._compare. now rewrite G.
  - intros item value e I G E. rewrite filter_run, T.
    destruct (Search.comprehension _ (Search.root c)) as [kept|e'] eqn:C.
    + destruct (comprehension_Ok_all _ _ _ C item I) as [b B].
      unfold Search._compare in B. rewrite G in B. simpl in B. congruence.
    + destruct (comprehension_Raise_some _ _ _ C) as (item' & I' & K).
      destruct (R item' I') as [value' G'].
      exists e', item', value'. repeat split; try assumption.
      unfold Search._compare in K. now rewrite G' in K.
Qed.

End PathResolves.

Lemma links_resolve_id :
  resolves_on (ByPath.AttrPath_init "id") (Search.root Sample.links).
Proof.
  intros item I. simpl in I.
  destruct I as [<-|[<-|[<-|[]]]]; eexists; reflexivity.
Qed.

(** C8, as the claim states it, fails: the path [id] resolves on every
    element of the sample collection, but the operator [LT] does not apply to
    an integer and a string, so [filter(id_lt="x")] raises [TypeError] and the
    collection keeps its three elements; [filter] and then [exclude] do not
    leave it empty. *)
Lemma filter_raises_where_path_resolves :
  resolves_on (ByPath.AttrPath_init "id") (Search.root Sample.links) /\
  Search._get_compare_tuple [("id_lt", PyObj.PyStr "x")]
  = Ok (ByPath.AttrPath_init "id", PyObj.PyStr "x", Compare.LT) /\
  Search.filter [("id_lt", PyObj.PyStr "x")] Sample.links
  = (Raise (TypeError "'<' not supported between instances of 'int' and 'str'"),
     Sample.links) /\
  ~ (exists c1,
        Search.filter [("id_lt", PyObj.PyStr "x")] Sample.links = (Ok tt, c1) /\
        Search.exclude [("id_lt", PyObj.PyStr "x")] c1
        = (Ok tt, {| Search.root := [] |})).
Proof.
  split; [exact links_resolve_id|]. split; [reflexivity|].
  split; [reflexivity|].
  intros (c1 & F & _). discriminate F.
Qed.

Lemma filter_then_exclude_where_path_resolves_witness :
  (exists c1,
      Search.filter [("id_eq", PyObj.PyInt 1)] Sample.links = (Ok tt, c1) /\
      Search.exclude [("id_eq", PyObj.PyInt 1)] c1
      = (Ok tt, {| Search.root := [] |})) /\
  (exists e' item' value',
      Search.filter [("id_lt", PyObj.PyStr "x")] Sample.links
      = (Raise e', Sample.links) /\
      In item' (Search.root Sample.links) /\
      Search.item_getattr_path item' (ByPath.PathObj (ByPath.AttrPath_init "id"))
      = Ok value' /\
      Compare.evaluate Compare.LT value' (PyObj.PyStr "x") = Raise e').
Proof.
  split.
  - apply (proj1 (filter_then_exclude_where_path_resolves
                    [("id_eq", PyObj.PyInt 1)] Sample.links
                    (ByPath.AttrPath_init "id") (PyObj.PyInt 1) Compare.EQ
                    eq_refl links_resolve_id)).
    intros item value _ _. eexists. reflexivity.
  - exact (proj2 (filter_then_exclude_where_path_resolves
                    [("id_lt", PyObj.PyStr "x")] Sample.links
                    (ByPath.AttrPath_init "id") (PyObj.PyStr "x") Compare.LT
                    eq_refl links_resolve_id)
                 (Sample.link 1 "Piatnik") (PyObj.PyInt 1)
                 (TypeError "'<' not supported between instances of 'int' and 'str'")
                 (or_introl eq_refl) eq_refl eq_refl).
Defined.

(** The predicates of the sample collection evaluate on its elements. *)
Lemma links_evaluate_id_eq (rhs : PyObj.pyobj) :
  evaluates_on (ByPath.AttrPath_init "id") rhs Compare.EQ
    (Search.root Sample.links).
Proof.
  intros item I. simpl in I.
  destruct I as [<-|[<-|[<-|[]]]]; eexists; reflexivity.
Qed.

Lemma get_unique_or_default_witness :
  fst (Search.get PyObj.PyNone [("id_eq", PyObj.PyInt 1)] Sample.links)
  = Ok (Sample.link 1 "Piatnik") /\
  fst (Search.get PyObj.PyNone [("id_eq", PyObj.PyInt 9)] Sample.links)
  = Ok PyObj.PyNone.
Proof.
  split.
  - exact (proj1 (get_unique_or_default PyObj.PyNone
                    [("id_eq", PyObj.PyInt 1)] Sample.links
                    (ByPath.AttrPath_init "id") (PyObj.PyInt 1) Compare.EQ
                    eq_refl (links_evaluate_id_eq _))
                 (Sample.link 1 "Piatnik") eq_refl).
  - exact (proj1 (proj2 (get_unique_or_default PyObj.PyNone
                    [("id_eq", PyObj.PyInt 9)] Sample.links
                    (ByPath.AttrPath_init "id") (PyObj.PyInt 9) Compare.EQ
                    eq_refl (links_evaluate_id_eq _)))
                 eq_refl).
Defined.

(** C2, as the claim states it, fails: after [get(id_eq=1)] on a collection
    of three links the wrapped list holds the one link that matched; the two
    that did not match are no longer in it. *)
Lemma get_shrinks_the_collection :
  Search.root (snd (Search.get PyObj.PyNone [("id_eq", PyObj.PyInt 1)] Sample.links))
  = [Sample.link 1 "Piatnik"] /\
  In (Sample.link 2 "Playroom") (Search.root Sample.links) /\
  ~ In (Sample.link 2 "Playroom")
       (Search.root
          (snd (Search.get PyObj.PyNone [("id_eq", PyObj.PyInt 1)] Sample.links))) /\
  snd (Search.get PyObj.PyNone [("id_eq", PyObj.PyInt 1)] Sample.links)
  <> Sample.links.
Proof.
  split; [reflexivity|]. split; [simpl; tauto|]. split.
  - cbv. intros [E|[]]. discriminate E.
  - cbv. intros E. discriminate E.
Qed.

Lemma get_filters_in_place_witness :
  Search.root (snd (Search.get PyObj.PyNone [("id_eq", PyObj.PyInt 1)] Sample.links))
  = List.filter (satisfies (ByPath.AttrPath_init "id") (PyObj.PyInt 1) Compare.EQ)
      (Search.root Sample.links).
Proof.
  exact (proj1 (get_filters_in_place PyObj.PyNone
                  [("id_eq", PyObj.PyInt 1)] Sample.links)
               (ByPath.AttrPath_init "id") (PyObj.PyInt 1) Compare.EQ
               eq_refl (links_evaluate_id_eq _)).
Defined.

Lemma filter_then_exclude_is_empty_witness :
  exists c1,
    Search.filter [("id_eq", PyObj.PyInt 1)] Sample.links = (Ok tt, c1) /\
    Search.exclude [("id_eq", PyObj.PyInt 1)] c1
    = (Ok tt, {| Search.root := [] |}).
Proof.
  exact (filter_then_exclude_is_empty [("id_eq", PyObj.PyInt 1)] Sample.links
           (ByPath.AttrPath_init "id") (PyObj.PyInt 1) Compare.EQ
           eq_refl (links_evaluate_id_eq _)).
Defined.

Lemma failed_call_leaves_collection_witness :
  snd (Search.filter [("nope_eq", PyObj.PyInt 3)] Sample.links) = Sample.links.
Proof.
  exact (proj1 failed_call_leaves_collection
           [("nope_eq", PyObj.PyInt 3)] Sample.links
           (snd (Search.filter [("nope_eq", PyObj.PyInt 3)] Sample.links))
           (AttributeError
              "'Link' object has no attribute path 'nope', since 'Link' object has no attribute 'nope'")
           (or_introl eq_refl)).
Defined.

(** ** Records *)

Section Records.
Variable int_of_str : string -> option Z.
Variable valid_url : string -> bool.
Variable now_year : Z.
Variable Polls : Type.
Variable validate_polls : Models.raw -> result Polls.
Variable no_polls : Polls.

Lemma required_fails_as_validation {A : Type} (field : string)
  (choices : list string) (validate : string -> Models.raw -> result A)
  (data : list (string * Models.raw)) :
  (forall loc r, fails_as_validation (validate loc r)) ->
  fails_as_validation (Models.required field choices validate data).
Proof.
  intros W e. unfold Models.required.
  destruct (Models.lookup_choices choices data) as [r|].
  - apply W.
  - unfold Models.invalid. intros [= <-]. now eexists.
Qed.

Lemma validate_int_fails (loc : string) (r : Models.raw) :
  fails_as_validation (Models.validate_int int_of_str loc r).
Proof.
  intros e. destruct r as [|z|s|l|d]; simpl; unfold Models.invalid;
    try destruct (int_of_str s); intros [= <-]; now eexists.
Qed.

Lemma validate_str_fails (loc : string) (r : Models.raw) :
  fails_as_validation (Models.validate_str loc r).
Proof.
  intros e. destruct r; simpl; unfold Models.invalid; intros [= <-];
    now eexists.
Qed.

Lemma validate_url_fails (loc : string) (r : Models.raw) :
  fails_as_validation (Models.validate_url valid_url loc r).
Proof.
  intros e. destruct r as [|z|s|l|d]; simpl; unfold Models.invalid;
    try destruct (valid_url s); intros [= <-]; now eexists.
Qed.

Lemma validate_enum_fails {E : Type} (members : list (string * E))
  (loc : string) (r : Models.raw) :
  fails_as_validation (Models.validate_enum members loc r).
Proof.
  intros e. destruct r as [|z|s|l|d]; simpl; unfold Models.invalid;
    try destruct (find _ members); intros [= <-]; now eexists.
Qed.

(** Whatever the other fields are, a [name] that does not validate makes
    the construction of a [Thing] fail with a validation error. *)
Lemma Thing_init_name_fails (data : list (string * Models.raw)) (msg : string) :
  Models.required "name" (Models.alias_choices "name")
    Models.Thing_validate_name data = Raise (ValidationError msg) ->
  exists msg',
    Models.Thing_init int_of_str valid_url now_year Polls validate_polls
      no_polls data = Raise (ValidationError msg').
Proof.
  intros N. unfold Models.Thing_init.
  destruct (Models.required "id" _ _ data) as [id|e] eqn:E1; simpl.
  2:{ destruct (required_fails_as_validation _ _ _ data validate_int_fails e E1)
        as [m ->]. now eexists. }
  destruct (Models.required "thing_type" _ _ data) as [ty|e] eqn:E2; simpl.
  2:{ destruct (required_fails_as_validation _ _ _ data
                  (validate_enum_fails _) e E2) as [m ->]. now eexists. }
  destruct (Models.required "description" _ _ data) as [ds|e] eqn:E3; simpl.
  2:{ destruct (required_fails_as_validation _ _ _ data validate_str_fails e E3)
        as [m ->]. now eexists. }
  destruct (Models.required "thumbnail" _ _ data) as [th|e] eqn:E4; simpl.
  2:{ destruct (required_fails_as_validation _ _ _ data validate_url_fails e E4)
        as [m ->]. now eexists. }
  destruct (Models.required "image" _ _ data) as [im|e] eqn:E5; simpl.
  2:{ destruct (required_fails_as_validation _ _ _ data validate_url_fails e E5)
        as [m ->]. now eexists. }
  rewrite N. simpl. now eexists.
Qed.

(** An empty name list always fails the construction. *)
Lemma Thing_empty_name_rejected (data : list (string * Models.raw)) :
  Models.lookup_choices (Models.alias_choices "name") data
  = Some (Models.RList []) ->
  exists msg,
    Models.Thing_init int_of_str valid_url now_year Polls validate_polls
      no_polls data = Raise (ValidationError msg).
Proof.
  intros L. eapply Thing_init_name_fails.
  unfold Models.required. rewrite L. reflexivity.
Qed.

(** A name given as one bare dictionary always fails the construction:
    the field takes a list and nothing wraps the dictionary into one. *)
Lemma Thing_bare_name_rejected (data d : list (string * Models.raw)) :
  Models.lookup_choices (Models.alias_choices "name") data
  = Some (Models.RDict d) ->
  exists msg,
    Models.Thing_init int_of_str valid_url now_year Polls validate_polls
      no_polls data = Raise (ValidationError msg).
Proof.
  intros L. eapply Thing_init_name_fails.
  unfold Models.required. rewrite L. reflexivity.
Qed.

(** C4 (amended): with the current year at least 1, constructing a
    [YearPublished] with the integer one greater than the current year fails
    with a validation error, and with the current year itself it succeeds.
    With a null value it fails with a validation error: the field is declared
    [int], so [None] is rejected before [is_not_future] runs.  The function
    [is_not_future] by itself accepts [None]. *)
Theorem YearPublished_construction :
  (1 <= now_year)%Z ->
  (exists msg,
      Models.YearPublished_init int_of_str now_year
        [("value", Models.RInt (now_year + 1))]
      = Raise (ValidationError msg)) /\
  (exists y,
      Models.YearPublished_init int_of_str now_year
        [("value", Models.RInt now_year)] = Ok y) /\
  Models.YearPublished_init int_of_str now_year [("value", Models.RNone)]
  = Raise (ValidationError "value: Input should be a valid integer") /\
  Models.is_not_future now_year None = Ok None.
Proof.
  intros Y. repeat split.
  - unfold Models.YearPublished_init, Models.required. simpl.
    unfold Models.YearPublished_validate_value. simpl.
    replace (now_year + 1 =? 0)%Z with false by (symmetry; apply Z.eqb_neq; lia).
    replace (now_year <? now_year + 1)%Z with true
      by (symmetry; apply Z.ltb_lt; lia).
    simpl. now eexists.
  - unfold Models.YearPublished_init, Models.required. simpl.
    unfold Models.YearPublished_validate_value. simpl.
    rewrite Z.ltb_irrefl, andb_false_r. simpl. now eexists.
Qed.

(** C5: a [YearPublished] that was constructed holds [None] as its value,
    whatever it was constructed from: the value of the after-validator
    [is_not_future], which has no [return], is what the field keeps. *)
Theorem YearPublished_value_is_None (data : list (string * Models.raw))
  (y : Models.YearPublished) :
  Models.YearPublished_init int_of_str now_year data = Ok y ->
  Models.YearPublished_value y = None.
Proof.
  unfold Models.YearPublished_init, Models.required.
  destruct (Models.lookup_choices _ data) as [r|]; [|discriminate].
  unfold Models.YearPublished_validate_value.
  destruct (Models.validate_int int_of_str "value" r) as [v|e]; [|discriminate].
  simpl. destruct (negb (v =? 0)%Z && (now_year <? v)%Z); simpl.
  - discriminate.
  - now intros [= <-].
Qed.

End Records.

(** C4, as the claim states it, fails for a null value: constructing a
    [YearPublished] with [None] raises a validation error. *)
Lemma YearPublished_None_is_rejected :
  Sample.year_published_init [("value", Models.RNone)]
  = Raise (ValidationError "value: Input should be a valid integer") /\
  ~ (exists y, Sample.year_published_init [("value", Models.RNone)] = Ok y).
Proof.
  split; [reflexivity|]. intros [y E]. discriminate E.
Qed.

Lemma YearPublished_construction_witness :
  (1 <= 2026)%Z /\
  (exists msg,
      Sample.year_published_init [("value", Models.RInt (2026 + 1))]
      = Raise (ValidationError msg)) /\
  (exists y, Sample.year_published_init [("value", Models.RInt 2026)] = Ok y).
Proof.
  assert (Y : (1 <= 2026)%Z) by lia.
  split; [exact Y|]. split.
  - exact (proj1 (YearPublished_construction Sample.decimal_int 2026 Y)).
  - exact (proj1 (proj2 (YearPublished_construction Sample.decimal_int 2026 Y))).
Defined.

Lemma YearPublished_value_is_None_witness :
  Sample.year_published_init [("@value", Models.RStr "2011")]
  = Ok {| Models.YearPublished_value := None |} /\
  Models.YearPublished_value {| Models.YearPublished_value := None |} = None.
Proof.
  split; [reflexivity|].
  exact (YearPublished_value_is_None Sample.decimal_int 2026
           [("@value", Models.RStr "2011")]
           {| Models.YearPublished_value := None |} eq_refl).
Defined.

(** C3: an item whose name is an empty list is rejected, and an item whose
    name is a list of one entry is accepted with that one name; but the same
    entry given bare, as the XML parser gives the only name of an item, is
    rejected as not being a list, where the claim has it accepted as a
    one-element list. *)
Theorem Thing_name_as_list_or_bare :
  Sample.thing_init (Sample.item_with_name (Models.RList []))
  = Raise (ValidationError "name: Value error, value is empty") /\
  (exists t,
      Sample.thing_init
        (Sample.item_with_name
           (Models.RList [Sample.name_entry "primary" "Killer Bunnies"]))
      = Ok t /\
      Models.Thing_name _ t
      = [{| Models.ThingName_name_type := Models.NameType.PRIMARY;
            Models.ThingName_value := "Killer Bunnies" |}]) /\
  Sample.thing_init
    (Sample.item_with_name (Sample.name_entry "primary" "Killer Bunnies"))
  = Raise (ValidationError "name: Input should be a valid list").
Proof.
  split; [reflexivity|]. split; [|reflexivity].
  eexists. split; reflexivity.
Qed.

(** * Further properties *)

(** ** Splitting and joining path text *)

Lemma prefix_drop (a s : string) :
  String.prefix a s = true -> s = a ++ drop (String.length a) s.
Proof.
  revert s. induction a as [|x a IH]; intros s P; simpl.
  - reflexivity.
  - destruct s as [|y s]; simpl in P; [discriminate|].
    destruct (Ascii.ascii_dec x y) as [<-|]; [|discriminate].
    now rewrite <- (IH s P).
Qed.

Lemma join_cons (sep x : string) (l : list string) :
  l <> [] -> join sep (x :: l) = x ++ sep ++ join sep l.
Proof. destruct l; [congruence | reflexivity]. Qed.

Lemma join_snoc (sep x : string) (l : list string) :
  l <> [] -> join sep (l ++ [x])%list = join sep l ++ sep ++ x.
Proof.
  induction l as [|y l IH]; intros N; [congruence|].
  destruct l as [|z l].
  - reflexivity.
  - change (((y :: z :: l) ++ [x])%list) with (y :: ((z :: l) ++ [x]))%list.
    rewrite join_cons by (simpl; discriminate).
    rewrite IH by discriminate.
    rewrite (join_cons sep y (z :: l)) by discriminate.
    now rewrite !append_assoc.
Qed.

Lemma join_split_from (sep : string) (s : string) (skip : nat) (cur : string) :
  sep <> "" ->
  join sep (split_from sep skip cur s) = cur ++ drop skip s.
Proof.
  intros N. revert skip cur.
  induction s as [|c s IH]; intros skip cur; cbn [split_from].
  - destruct skip; simpl; now rewrite append_nil_r.
  - destruct skip as [|k]; [|apply IH].
    destruct (String.prefix sep (String c s)) eqn:P.
    + rewrite join_cons by apply split_from_not_nil.
      rewrite IH. apply prefix_drop in P.
      destruct sep as [|x sep]; [congruence|].
      simpl String.length in *. simpl drop in P.
      replace (S (String.length sep) - 1)%nat with (String.length sep) by lia.
      simpl. simpl in P. now rewrite <- P.
    + rewrite IH. simpl. now rewrite append_assoc.
Qed.

(** X1: the text of a path is recovered from its segments: rendering the
    path built from any string gives that string back. *)
Theorem render_AttrPath_init (s : string) :
  ByPath.render (ByPath.AttrPath_init s) = s.
Proof.
  unfold ByPath.render, ByPath.AttrPath_init, split. simpl.
  now rewrite join_split_from by discriminate.
Qed.

Lemma path_as_parts_join (path : string) :
  join "__" (ByPath.path_as_parts path) = path.
Proof.
  unfold ByPath.path_as_parts, split.
  now rewrite join_split_from by discriminate.
Qed.

(** X2: [path_popleft] cuts a path text at its first separator: with a
    single segment the segment is the text and the rest is empty, otherwise
    the first segment, the separator and the rest make up the text. *)
Theorem path_popleft_reassembles (path : string) :
  let '(first, rest) := ByPath.path_popleft path in
  (List.length (ByPath.path_as_parts path) = 1%nat ->
   first = path /\ rest = "") /\
  (1 < List.length (ByPath.path_as_parts path) ->
   path = first ++ "__" ++ rest).
Proof.
  unfold ByPath.path_popleft.
  pose proof (path_as_parts_join path) as J.
  destruct (ByPath.path_as_parts path) as [|h [|x t]] eqn:E.
  - now destruct (split_from_not_nil "__" path 0 "").
  - simpl in *. split; [now intros _ | intros L; simpl in L; lia].
  - split; [intros L; discriminate L|]. intros _.
    cbn [hd tl List.length Nat.ltb Nat.leb].
    now rewrite <- J.
Qed.

(** X3: [path_popright] cuts a path text at its last separator: with a
    single segment the segment is the text and the rest is empty, otherwise
    the rest, the separator and the last segment make up the text. *)
Theorem path_popright_reassembles (path : string) :
  let '(final, rest) := ByPath.path_popright path in
  (List.length (ByPath.path_as_parts path) = 1%nat ->
   final = path /\ rest = "") /\
  (1 < List.length (ByPath.path_as_parts path) ->
   path = rest ++ "__" ++ final).
Proof.
  unfold ByPath.path_popright.
  pose proof (path_as_parts_join path) as J.
  assert (N : ByPath.path_as_parts path <> [])
    by apply split_from_not_nil.
  destruct (exists_last N) as (init & x & E). rewrite E in *.
  rewrite last_last, removelast_last, List.length_app. simpl List.length.
  destruct init as [|y init].
  - simpl in *. split; [now intros _ | intros L; lia].
  - split; [intros L; simpl in L; lia|]. intros _.
    replace (1 <? List.length (y :: init) + 1)%nat with true
      by (symmetry; apply Nat.ltb_lt; simpl; lia).
    rewrite <- J. now apply join_snoc.
Qed.

(** X4: popping on the left of a path object agrees with [path_popleft] on
    its text: the segment returned is the first component, and what is left
    renders as the second. *)
Theorem popleft_agrees_with_path_popleft (path : string) :
  exists p',
    ByPath.popleft (ByPath.AttrPath_init path)
    = (Ok (fst (ByPath.path_popleft path)), p') /\
    ByPath.render p' = snd (ByPath.path_popleft path).
Proof.
  unfold ByPath.path_popleft, ByPath.popleft, ByPath.AttrPath_init,
    ByPath.path_as_parts, ByPath.render.
  cbn [ByPath._parts ByPath._separator].
  destruct (split "__" path) as [|h [|x t]] eqn:E.
  - now destruct (split_from_not_nil "__" path 0 "").
  - eexists. split; reflexivity.
  - eexists. split; reflexivity.
Qed.

(** ** Indexed access to the segments *)

Lemma rotate_to_front {A : Type} (a b : list A) (x : A) :
  rotate (- Z.of_nat (List.length a)) (a ++ x :: b)%list = (x :: b ++ a)%list.
Proof.
  unfold rotate.
  destruct (a ++ x :: b)%list as [|y l] eqn:E.
  { now destruct a. }
  rewrite <- E. clear E y l.
  rewrite List.length_app. cbn [List.length].
  destruct a as [|y a].
  - cbn [List.length]. change (- Z.of_nat 0)%Z with 0%Z.
    rewrite Z.mod_0_l by lia. rewrite Z.sub_0_r, Nat2Z.id.
    change (0 + S (List.length b))%nat with (List.length ([] ++ x :: b)%list).
    rewrite skipn_all, firstn_all. simpl. now rewrite app_nil_r.
  - set (i := List.length (y :: a)). set (n := List.length b).
    assert (I : (0 < i)%nat) by (subst i; simpl; lia).
    assert (M : (- Z.of_nat i mod Z.of_nat (i + S n)
                 = Z.of_nat (i + S n) - Z.of_nat i)%Z).
    { symmetry. apply Z.mod_unique with (q := (-1)%Z); lia. }
    rewrite M.
    replace (Z.to_nat (Z.of_nat (i + S n) - (Z.of_nat (i + S n) - Z.of_nat i)))
      with i by lia.
    subst i.
    rewrite skipn_app, firstn_app, skipn_all, firstn_all, Nat.sub_diag.
    simpl. now rewrite app_nil_r.
Qed.

Lemma rotate_back {A : Type} (a b : list A) :
  rotate (Z.of_nat (List.length a)) (b ++ a)%list = (a ++ b)%list.
Proof.
  unfold rotate.
  destruct (b ++ a)%list as [|y l] eqn:E.
  { apply app_eq_nil in E as [-> ->]. reflexivity. }
  rewrite <- E.
  assert (L : (0 < List.length (b ++ a))%nat) by (rewrite E; simpl; lia).
  clear E y l.
  destruct b as [|y b].
  - cbn ["++"%list] in *.
    rewrite Z_mod_same_full, Z.sub_0_r, Nat2Z.id.
    rewrite skipn_all, firstn_all. simpl. now rewrite app_nil_r.
  - rewrite List.length_app in *.
    set (n := List.length (y :: b)) in *. set (i := List.length a) in *.
    assert (N : (0 < n)%nat) by (subst n; simpl; lia).
    assert (M : (Z.of_nat i mod Z.of_nat (n + i) = Z.of_nat i)%Z).
    { apply Z.mod_small. lia. }
    rewrite M.
    replace (Z.to_nat (Z.of_nat (n + i) - Z.of_nat i)) with n by lia.
    subst n.
    rewrite skipn_app, firstn_app, skipn_all, firstn_all, Nat.sub_diag.
    simpl. now rewrite app_nil_r.
Qed.

(** X5: [pop(index)] with an index from 0 up to the depth removes and
    returns the segment at that position and keeps the other segments in
    their order. *)
Theorem pop_at_position (p : ByPath.AttrPath) (a b : list string) (x : string) :
  ByPath._parts p = (a ++ x :: b)%list ->
  ByPath.pop (Z.of_nat (List.length a)) p
  = (Ok x, ByPath.set_parts p (a ++ b)%list).
Proof.
  intros E. unfold ByPath.pop. rewrite E, rotate_to_front.
  cbn [Py.popleft]. now rewrite rotate_back.
Qed.

Lemma pop_at_position_witness :
  ByPath._parts (ByPath.AttrPath_init "a__b__c") = (["a"] ++ "b" :: ["c"])%list /\
  ByPath.pop 1 (ByPath.AttrPath_init "a__b__c")
  = (Ok "b", ByPath.set_parts (ByPath.AttrPath_init "a__b__c") ["a"; "c"]).
Proof.
  split; [reflexivity|].
  exact (pop_at_position (ByPath.AttrPath_init "a__b__c") ["a"] ["c"] "b" eq_refl).
Defined.

(** X6: [pop()] with its default index returns the last segment, and of
    the segments before it the first ends up last: the rotation back by -1
    moves it behind the others. *)
Theorem pop_default_moves_first_behind (p : ByPath.AttrPath) (y x : string)
  (mid : list string) :
  ByPath._parts p = (y :: mid ++ [x])%list ->
  ByPath.pop_default p = (Ok x, ByPath.set_parts p (mid ++ [y])%list).
Proof.
  intros E.
  rewrite (pop_default_snoc p (y :: mid) x E). f_equal. f_equal.
  destruct mid as [|z mid]; [reflexivity|].
  exact (rotate_to_front [y] mid z).
Qed.

Lemma pop_default_moves_first_behind_witness :
  ByPath._parts (ByPath.AttrPath_init "a__b__c__d")
  = ("a" :: ["b"; "c"] ++ ["d"])%list /\
  ByPath.pop_default (ByPath.AttrPath_init "a__b__c__d")
  = (Ok "d", ByPath.set_parts (ByPath.AttrPath_init "a__b__c__d")
               (["b"; "c"] ++ ["a"])%list).
Proof.
  split; [reflexivity|].
  exact (pop_default_moves_first_behind (ByPath.AttrPath_init "a__b__c__d")
           "a" "d" ["b"; "c"] eq_refl).
Defined.

Lemma nth_error_middle {A : Type} (a b : list A) (x : A) :
  nth_error (a ++ x :: b)%list (List.length a) = Some x.
Proof. induction a as [|y a IH]; [reflexivity | exact IH]. Qed.

(** X7: [AttrPath.get(index)] returns the segment at a position counted
    from the front for an index from 0 and from the back for a negative one,
    and raises [IndexError] for every index outside [-depth, depth). *)
Theorem get_by_index (p : ByPath.AttrPath) :
  (forall (a b : list string) (x : string),
      ByPath._parts p = (a ++ x :: b)%list ->
      ByPath.get (Z.of_nat (List.length a)) p = Ok x /\
      ByPath.get (- Z.of_nat (S (List.length b))) p = Ok x) /\
  (forall index : Z,
      (index < - Z.of_nat (ByPath.depth p) \/ Z.of_nat (ByPath.depth p) <= index)%Z ->
      ByPath.get index p = Raise (IndexError "deque index out of range")).
Proof.
  split.
  - intros a b x E. unfold ByPath.get. rewrite E, List.length_app.
    simpl List.length. split.
    + replace (Z.of_nat (List.length a) <? 0)%Z with false
        by (symmetry; apply Z.ltb_ge; lia).
      replace (Z.of_nat (List.length a) <? 0)%Z with false
        by (symmetry; apply Z.ltb_ge; lia).
      replace (Z.of_nat (List.length a + S (List.length b))
               <=? Z.of_nat (List.length a))%Z with false
        by (symmetry; apply Z.leb_gt; lia).
      simpl. now rewrite Nat2Z.id, nth_error_middle.
    + replace (- Z.of_nat (S (List.length b)) <? 0)%Z with true
        by (symmetry; apply Z.ltb_lt; lia).
      replace (- Z.of_nat (S (List.length b))
               + Z.of_nat (List.length a + S (List.length b)))%Z
        with (Z.of_nat (List.length a)) by lia.
      replace (Z.of_nat (List.length a) <? 0)%Z with false
        by (symmetry; apply Z.ltb_ge; lia).
      replace (Z.of_nat (List.length a + S (List.length b))
               <=? Z.of_nat (List.length a))%Z with false
        by (symmetry; apply Z.leb_gt; lia).
      simpl. now rewrite Nat2Z.id, nth_error_middle.
  - intros index R. unfold ByPath.get, ByPath.depth in *.
    set (len := Z.of_nat (List.length (ByPath._parts p))) in *.
    destruct (index <? 0)%Z eqn:S.
    + apply Z.ltb_lt in S.
      replace (index + len <? 0)%Z with true by (symmetry; apply Z.ltb_lt; lia).
      reflexivity.
    + apply Z.ltb_ge in S.
      replace (index <? 0)%Z with false by (symmetry; apply Z.ltb_ge; lia).
      replace (len <=? index)%Z with true by (symmetry; apply Z.leb_le; lia).
      reflexivity.
Qed.

Lemma get_by_index_witness :
  ByPath.get 1 (ByPath.AttrPath_init "a__b__c") = Ok "b" /\
  ByPath.get (-2) (ByPath.AttrPath_init "a__b__c") = Ok "b" /\
  ByPath.get 3 (ByPath.AttrPath_init "a__b__c")
  = Raise (IndexError "deque index out of range").
Proof.
  split; [|split].
  - exact (proj1 (proj1 (get_by_index (ByPath.AttrPath_init "a__b__c"))
                   ["a"] ["c"] "b" eq_refl)).
  - exact (proj2 (proj1 (get_by_index (ByPath.AttrPath_init "a__b__c"))
                   ["a"] ["c"] "b" eq_refl)).
  - apply (proj2 (get_by_index (ByPath.AttrPath_init "a__b__c")) 3%Z).
    right. simpl. lia.
Defined.

(** X8: [get_path_part] never fails at the two ends of a path text: index 0
    gives the first component of [path_popleft] and index -1 the first
    component of [path_popright]. *)
Theorem get_path_part_ends (path : string) :
  PathOps.get_path_part path 0 = Ok (fst (ByPath.path_popleft path)) /\
  PathOps.get_path_part path (-1) = Ok (fst (ByPath.path_popright path)).
Proof.
  unfold PathOps.get_path_part, ByPath.path_popleft, ByPath.path_popright.
  assert (N : ByPath.path_as_parts path <> []) by apply split_from_not_nil.
  split.
  - destruct (ByPath.path_as_parts path) as [|h t]; [congruence|].
    unfold PyList.getitem, PyList.position. simpl List.length.
    replace (Z.of_nat (S (List.length t)) <=? 0)%Z with false
      by (symmetry; apply Z.leb_gt; lia).
    reflexivity.
  - destruct (exists_last N) as (init & x & E). rewrite E.
    rewrite last_last. unfold PyList.getitem, PyList.position.
    rewrite List.length_app. simpl List.length.
    change (-1 <? 0)%Z with true. cbv iota.
    replace (-1 + Z.of_nat (List.length init + 1))%Z
      with (Z.of_nat (List.length init)) by lia.
    replace (Z.of_nat (List.length init) <? 0)%Z with false
      by (symmetry; apply Z.ltb_ge; lia).
    replace (Z.of_nat (List.length init + 1) <=? Z.of_nat (List.length init))%Z
      with false by (symmetry; apply Z.leb_gt; lia).
    simpl. now rewrite Nat2Z.id, nth_error_middle.
Qed.

(** ** Resolution with and without a default *)

Section Defaults.
Context {V : Type} `{PyData V}.

Lemma getattr_loop_default (obj : V) (path : ByPath.path_arg) (d : V)
  (names : list string) (current : V) :
  ByPath.getattr_loop obj path (Some d) names current
  = match ByPath.getattr_loop obj path None names current with
    | Ok v => Ok v
    | Raise _ => Ok d
    end.
Proof.
  revert current. induction names as [|name names IH]; intros current; simpl.
  - reflexivity.
  - destruct (py_getattr current name) as [fetched|]; [|reflexivity].
    destruct (py_is_None fetched); [reflexivity | apply IH].
Qed.

Lemma getattr_loop_raises (obj : V) (path : ByPath.path_arg)
  (names : list string) (current : V) (e : exn) :
  ByPath.getattr_loop obj path None names current = Raise e ->
  exists msg, e = AttributeError msg.
Proof.
  revert current. induction names as [|name names IH]; intros current; simpl.
  - discriminate.
  - destruct (py_getattr current name) as [fetched|].
    + destruct (py_is_None fetched); [discriminate | apply IH].
    + intros [= <-]. now eexists.
Qed.

(** X9: a default turns every failure of [getattr_path] into the default
    and changes nothing else: with a default the call returns what the call
    without one returns, and the default where that one raises.  In
    particular it never raises. *)
Theorem getattr_path_default (obj : V) (path : ByPath.path_arg) (d : V) :
  ByPath.getattr_path obj path (Some d)
  = match ByPath.getattr_path obj path None with
    | Ok v => Ok v
    | Raise _ => Ok d
    end.
Proof.
  unfold ByPath.getattr_path. destruct (ByPath.is_empty_str path).
  - reflexivity.
  - apply getattr_loop_default.
Qed.

(** X10: the only exception [getattr_path] raises is [AttributeError]. *)
Theorem getattr_path_raises_AttributeError (obj : V) (path : ByPath.path_arg)
  (default : option V) (e : exn) :
  ByPath.getattr_path obj path default = Raise e ->
  exists msg, e = AttributeError msg.
Proof.
  unfold ByPath.getattr_path. destruct (ByPath.is_empty_str path).
  - discriminate.
  - destruct default as [d|].
    + rewrite getattr_loop_default.
      destruct (ByPath.getattr_loop obj path None _ obj); discriminate.
    + apply getattr_loop_raises.
Qed.

(** X11: when every attribute along the path exists and none of the values
    fetched is [None], [getattr_path] returns the value at the end of the
    path, with or without a default. *)
Theorem getattr_path_reaches (obj v : V) (path : ByPath.path_arg)
  (default : option V) :
  reach obj (ByPath.parts (ByPath.str_to_path path)) = Some v ->
  ByPath.is_empty_str path = false ->
  ByPath.getattr_path obj path default = Ok v.
Proof.
  intros R E. unfold ByPath.getattr_path. rewrite E.
  unfold ByPath.parts in R.
  rewrite <- (app_nil_r (ByPath._parts (ByPath.str_to_path path))).
  now rewrite (getattr_loop_reach _ _ _ _ _ _ _ R).
Qed.

End Defaults.

Lemma getattr_path_raises_AttributeError_witness :
  exists msg,
    AttributeError
      "'Thing' object has no attribute path 'nope', since 'Thing' object has no attribute 'nope'"
    = AttributeError msg.
Proof.
  exact (getattr_path_raises_AttributeError Sample.nested
           (ByPath.PathStr "nope") None _ eq_refl).
Defined.

Lemma getattr_path_reaches_witness :
  ByPath.getattr_path Sample.nested (ByPath.PathStr "min_age__value") None
  = Ok (PyObj.PyInt 8).
Proof.
  exact (getattr_path_reaches Sample.nested (PyObj.PyInt 8)
           (ByPath.PathStr "min_age__value") None eq_refl eq_refl).
Defined.

(** ** The operator registry *)

(** X12: the registry has fourteen operators with pairwise distinct names,
    and lookup by name is the inverse of [name]: the name of a member finds
    that member, and a key that finds a member is its name. *)
Theorem registry_lookup :
  List.length Compare.members = 14%nat /\
  NoDup (map Compare.name Compare.members) /\
  (forall op, In op Compare.members) /\
  (forall op, Compare.Operators_getitem (Compare.name op) = Ok op) /\
  (forall key op, Compare.Operators_getitem key = Ok op <-> Compare.name op = key).
Proof.
  split; [reflexivity|]. split; [|split; [|split]].
  - simpl. repeat (constructor; [simpl; intuition discriminate|]). constructor.
  - intros op. simpl. destruct op; tauto.
  - exact Operators_getitem_name.
  - intros key op. split.
    + apply Operators_getitem_Ok.
    + intros <-. apply Operators_getitem_name.
Qed.

Lemma prefix_underscore (c : ascii) (s : string) :
  String.prefix "_" (String c s) = Ascii.eqb c underscore.
Proof.
  cbn [String.prefix]. destruct (Ascii.ascii_dec "_" c) as [<-|N].
  - now destruct s.
  - symmetry. apply Ascii.eqb_neq. unfold underscore. congruence.
Qed.

Lemma split_underscore_free (cur t : string) :
  no_underscore t = true -> split_from "_" 0 cur t = [cur ++ t].
Proof.
  revert cur. induction t as [|c t IH]; intros cur U; cbn [split_from].
  - now rewrite append_nil_r.
  - unfold no_underscore in U; simpl in U.
    apply andb_true_iff in U as [C U]. apply negb_true_iff in C.
    rewrite prefix_underscore, C, (IH _ U). now rewrite append_assoc.
Qed.

Lemma last_split_underscore (p cur t : string) :
  no_underscore t = true ->
  last (split_from "_" 0 cur (p ++ String underscore t)) "" = t.
Proof.
  intros U. revert cur. induction p as [|c p IH]; intros cur.
  - simpl "++". cbn [split_from]. rewrite prefix_underscore, Ascii.eqb_refl.
    simpl. now rewrite (split_underscore_free "" t U).
  - simpl "++". cbn [split_from]. rewrite prefix_underscore.
    destruct (Ascii.eqb c underscore).
    + simpl Nat.sub.
      pose proof (split_from_not_nil "_" (p ++ String underscore t) 0 "") as N.
      destruct (split_from "_" 0 "" (p ++ String underscore t)) as [|h l] eqn:E;
        [congruence|].
      change (last (cur :: h :: l) "") with (last (h :: l) "").
      rewrite <- E. apply IH.
    + apply IH.
Qed.

(** X13: the two decoders agree: on every key that [_split_lhs] decodes,
    [Operators.get_operator] finds the same operator, with or without a
    default. *)
Theorem get_operator_agrees_with_split_lhs (key : string)
  (p : ByPath.AttrPath) (op : Compare.Operators)
  (default : option Compare.Operators) :
  Search._split_lhs key = Ok (p, op) ->
  Compare.get_operator key default = Ok op.
Proof.
  intros E. apply split_lhs_Ok in E as (g1 & g2 & -> & _ & _ & _ & U & _ & N).
  unfold Compare.get_operator, split.
  rewrite (last_split_underscore g1 "" g2 U), N.
  pose proof (Operators_getitem_name op) as G.
  unfold Compare.Operators_getitem in G.
  destruct (find _ Compare.members) as [m|]; [|discriminate].
  now injection G as ->.
Qed.

Lemma get_operator_agrees_with_split_lhs_witness :
  Compare.get_operator "name__value_iequal" None = Ok Compare.IEQUAL.
Proof.
  exact (get_operator_agrees_with_split_lhs "name__value_iequal"
           (ByPath.AttrPath_init "name__value") Compare.IEQUAL None eq_refl).
Defined.

(** A default turns the one failure of [get_operator] into the default
    and changes nothing else; without a default an unknown token raises
    [KeyError] naming the token in upper case. *)
Lemma get_operator_default (path : string) (d : Compare.Operators) :
  Compare.get_operator path (Some d)
  = match Compare.get_operator path None with
    | Ok op => Ok op
    | Raise _ => Ok d
    end /\
  (forall e,
      Compare.get_operator path None = Raise e ->
      e = KeyError ("Operator '" ++ upper (last (split "_" path) "")
                      ++ "' not found")).
Proof.
  unfold Compare.get_operator.
  destruct (find _ Compare.members) as [m|]; split; try reflexivity.
  - discriminate.
  - now intros e [= <-].
Qed.

(** ** Letter case *)

Lemma upper_char_cases (c : ascii) :
  Ascii.eqb (upper_char c) underscore = Ascii.eqb c underscore /\
  upper_char (upper_char c) = upper_char c /\
  upper_char (lower_char c) = upper_char c.
Proof. destruct c as [[] [] [] [] [] [] [] []]; repeat split. Qed.

Lemma lower_char_cases (c : ascii) :
  Ascii.eqb (lower_char c) underscore = Ascii.eqb c underscore /\
  lower_char (lower_char c) = lower_char c /\
  lower_char (upper_char c) = lower_char c.
Proof. destruct c as [[] [] [] [] [] [] [] []]; repeat split. Qed.

Lemma map_string_compose (f g h : ascii -> ascii) (s : string) :
  (forall c, f (g c) = h c) ->
  map_string f (map_string g s) = map_string h s.
Proof.
  intros E. induction s as [|c s IH]; simpl; [reflexivity|].
  now rewrite E, IH.
Qed.

Lemma upper_upper (s : string) : upper (upper s) = upper s.
Proof. apply map_string_compose. intros c. apply upper_char_cases. Qed.

Lemma upper_lower (s : string) : upper (lower s) = upper s.
Proof. apply map_string_compose. intros c. apply upper_char_cases. Qed.

Lemma lower_lower (s : string) : lower (lower s) = lower s.
Proof. apply map_string_compose. intros c. apply lower_char_cases. Qed.

Lemma lower_upper (s : string) : lower (upper s) = lower s.
Proof. apply map_string_compose. intros c. apply lower_char_cases. Qed.

Lemma split_underscore_map (f : ascii -> ascii) (cur s : string) :
  (forall c, Ascii.eqb (f c) underscore = Ascii.eqb c underscore) ->
  split_from "_" 0 (map_string f cur) (map_string f s)
  = map (map_string f) (split_from "_" 0 cur s).
Proof.
  intros F. revert cur. induction s as [|c s IH]; intros cur.
  - reflexivity.
  - simpl map_string. cbn [split_from]. rewrite !prefix_underscore, F.
    destruct (Ascii.eqb c underscore).
    + simpl Nat.sub. cbn [map]. f_equal. apply (IH "").
    + rewrite <- IH. now rewrite map_string_app.
Qed.

Lemma split_underscore_map_whole (f : ascii -> ascii) (s : string) :
  (forall c, Ascii.eqb (f c) underscore = Ascii.eqb c underscore) ->
  split_from "_" 0 "" (map_string f s)
  = map (map_string f) (split_from "_" 0 "" s).
Proof. exact (split_underscore_map f "" s). Qed.

Lemma last_map_string (f : ascii -> ascii) (l : list string) :
  last (map (map_string f) l) "" = map_string f (last l "").
Proof.
  induction l as [|x [|y l] IH]; try reflexivity.
  exact IH.
Qed.

(** X14: [get_operator] does not depend on the letter case of its
    argument: the path in upper case and the path in lower case resolve as
    the path itself does, to the same operator or to the same failure. *)
Theorem get_operator_ignores_case (path : string)
  (default : option Compare.Operators) :
  Compare.get_operator (upper path) default = Compare.get_operator path default /\
  Compare.get_operator (lower path) default = Compare.get_operator path default.
Proof.
  unfold Compare.get_operator, split, upper, lower. split.
  - rewrite (split_underscore_map_whole upper_char path)
      by (intros c; apply upper_char_cases).
    rewrite last_map_string. fold (upper (last (split_from "_" 0 "" path) "")).
    fold (upper (upper (last (split_from "_" 0 "" path) ""))).
    now rewrite upper_upper.
  - rewrite (split_underscore_map_whole lower_char path)
      by (intros c; apply lower_char_cases).
    rewrite last_map_string. fold (lower (last (split_from "_" 0 "" path) "")).
    fold (upper (lower (last (split_from "_" 0 "" path) ""))).
    fold (upper (last (split_from "_" 0 "" path) "")).
    now rewrite upper_lower.
Qed.

(** X15: on strings the four case-insensitive operators do not depend on
    the letter case of either operand. *)
Theorem case_insensitive_operators (op : Compare.Operators) (s t : string) :
  In op [Compare.ICONTAINS; Compare.ISTARTSWITH; Compare.IENDSWITH;
         Compare.IEQUAL] ->
  let result := Compare.evaluate op (PyObj.PyStr s) (PyObj.PyStr t) in
  Compare.evaluate op (PyObj.PyStr (upper s)) (PyObj.PyStr t) = result /\
  Compare.evaluate op (PyObj.PyStr (lower s)) (PyObj.PyStr t) = result /\
  Compare.evaluate op (PyObj.PyStr s) (PyObj.PyStr (upper t)) = result /\
  Compare.evaluate op (PyObj.PyStr s) (PyObj.PyStr (lower t)) = result.
Proof.
  intros I. simpl in I.
  destruct I as [<-|[<-|[<-|[<-|[]]]]]; cbn;
    now rewrite ?lower_upper, ?lower_lower.
Qed.

Lemma case_insensitive_operators_witness :
  Compare.evaluate Compare.IEQUAL (PyObj.PyStr (upper "Playroom"))
    (PyObj.PyStr "playROOM")
  = Compare.evaluate Compare.IEQUAL (PyObj.PyStr "Playroom")
      (PyObj.PyStr "playROOM").
Proof.
  exact (proj1 (case_insensitive_operators Compare.IEQUAL "Playroom" "playROOM"
                  (or_intror (or_intror (or_intror (or_introl eq_refl)))))).
Defined.

(** ** Keyword arguments and keys *)

Section Keywords.
Context {V : Type} `{PyData V}.

(** X16: [filter], [exclude] and [get] take exactly one predicate: with two
    or more keyword arguments they raise [ValueError], with none they raise
    [StopIteration], and in both cases the collection is left as it was. *)
Theorem one_predicate_only (default : V) (c : Search.SearchBase) :
  (forall (kw1 kw2 : string * V) (rest : list (string * V)),
      let kwargs := kw1 :: kw2 :: rest in
      let e := ValueError "only one kwarg is allowed beyond default" in
      Search.filter kwargs c = (Raise e, c) /\
      Search.exclude kwargs c = (Raise e, c) /\
      Search.get default kwargs c = (Raise e, c)) /\
  (Search.filter [] c = (Raise StopIteration, c) /\
   Search.exclude [] c = (Raise StopIteration, c) /\
   Search.get default [] c = (Raise StopIteration, c)).
Proof.
  split; [intros kw1 kw2 rest|]; repeat split.
Qed.

(** X17: a key without an underscore has no operator suffix and is
    rejected: there is no default operator.  [filter], [exclude] and [get]
    raise [ValueError] naming the key and leave the collection as it was. *)
Theorem key_without_suffix_rejected (key : string) (rhs default : V)
  (c : Search.SearchBase) :
  no_underscore key = true ->
  let e := ValueError ("invalid path: " ++ key) in
  Search.filter [(key, rhs)] c = (Raise e, c) /\
  Search.exclude [(key, rhs)] c = (Raise e, c) /\
  Search.get default [(key, rhs)] c = (Raise e, c).
Proof.
  intros U e.
  assert (S : Search._split_lhs key = Raise e).
  { unfold Search._split_lhs. now rewrite (match_pattern_no_underscore key U). }
  destruct (filter_undecodable key rhs e c S) as [F X].
  repeat split; try assumption.
  unfold Search.get, mbind at 1. now rewrite F.
Qed.

End Keywords.

Lemma key_without_suffix_rejected_witness :
  Search.get PyObj.PyNone [("id", PyObj.PyInt 63306)] Sample.links
  = (Raise (ValueError "invalid path: id"), Sample.links).
Proof.
  exact (proj2 (proj2 (key_without_suffix_rejected "id" (PyObj.PyInt 63306)
                         PyObj.PyNone Sample.links eq_refl))).
Defined.

Lemma prefix_double_underscore (c : ascii) (s : string) :
  Ascii.eqb c underscore = false -> String.prefix "__" (String c s) = false.
Proof.
  intros C. cbn [String.prefix]. destruct (Ascii.ascii_dec "_" c) as [<-|N].
  - discriminate C.
  - reflexivity.
Qed.

Lemma split_single_trailing_underscore (cur p : string) :
  no_underscore p = true ->
  split_from "__" 0 cur (p ++ "_") = [cur ++ p ++ "_"].
Proof.
  revert cur. induction p as [|c p IH]; intros cur U.
  - reflexivity.
  - unfold no_underscore in U; simpl in U.
    apply andb_true_iff in U as [C U]. apply negb_true_iff in C.
    simpl "++". cbn [split_from].
    rewrite (prefix_double_underscore c _ C), (IH _ U).
    now rewrite append_assoc.
Qed.

Lemma is_word_app (a b : string) :
  is_word (a ++ b) = is_word a && is_word b.
Proof.
  unfold is_word. induction a as [|x a IH]; simpl; [reflexivity|].
  now rewrite IH, andb_assoc.
Qed.

(** X18: two underscores before the operator leave one of them in the
    path: the key made of a word, two underscores and the name of an operator
    in lower case decodes to that operator and to the path text made of the
    word and one underscore.  For a plain attribute name the path is then the
    single segment with the underscore at its end, not the attribute. *)
Theorem double_underscore_stays_in_path (p : string) (op : Compare.Operators) :
  p <> "" -> is_word p = true ->
  Search._split_lhs (p ++ "__" ++ lower (Compare.name op))
  = Ok (ByPath.AttrPath_init (p ++ "_"), op) /\
  (no_underscore p = true ->
   ByPath.parts (ByPath.AttrPath_init (p ++ "_")) = [p ++ "_"]).
Proof.
  intros N W. split.
  - apply split_lhs_Ok. exists (p ++ "_"), (lower (Compare.name op)).
    repeat split.
    + now rewrite append_assoc.
    + destruct p; [congruence | discriminate].
    + now rewrite is_word_app, W.
    + destruct op; discriminate.
    + destruct op; reflexivity.
    + rewrite upper_lower. destruct op; reflexivity.
  - intros U. exact (split_single_trailing_underscore "" p U).
Qed.

Lemma double_underscore_stays_in_path_witness :
  Search._split_lhs ("name" ++ "__" ++ lower (Compare.name Compare.IEQUAL))
  = Ok (ByPath.AttrPath_init ("name" ++ "_"), Compare.IEQUAL) /\
  ByPath.parts (ByPath.AttrPath_init ("name" ++ "_")) = ["name" ++ "_"].
Proof.
  assert (N : "name" <> "") by discriminate.
  split.
  - exact (proj1 (double_underscore_stays_in_path "name" Compare.IEQUAL
                    N eq_refl)).
  - exact (proj2 (double_underscore_stays_in_path "name" Compare.IEQUAL
                    N eq_refl) eq_refl).
Defined.

(** ** Chains of calls on a collection *)

Section Chains.
Context {V : Type} `{PyData V}.

Lemma filter_filter (p : V -> bool) (items : list V) :
  List.filter p (List.filter p items) = List.filter p items.
Proof.
  induction items as [|x items IH]; simpl; [reflexivity|].
  destruct (p x) eqn:P; simpl; [now rewrite P, IH | exact IH].
Qed.

Lemma filter_swap (p q : V -> bool) (items : list V) :
  List.filter p (List.filter q items) = List.filter q (List.filter p items).
Proof.
  induction items as [|x items IH]; simpl; [reflexivity|].
  destruct (q x) eqn:Q, (p x) eqn:P; simpl; rewrite ?Q, ?P, IH; reflexivity.
Qed.

Lemma filter_partition (p : V -> bool) (items : list V) :
  Permutation (List.filter p items
               ++ List.filter (fun x => negb (p x)) items)%list items.
Proof.
  induction items as [|x items IH]; simpl; [constructor|].
  destruct (p x); simpl.
  - now constructor.
  - symmetry. apply Permutation_cons_app. now symmetry.
Qed.

(** X19: [filter] is idempotent: where the predicate evaluates on the
    elements, a second [filter] with the same predicate returns and changes
    nothing. *)
Theorem filter_idempotent (kwargs : list (string * V)) (c : Search.SearchBase)
  (lhs : ByPath.AttrPath) (rhs : V) (op : Compare.Operators) :
  Search._get_compare_tuple kwargs = Ok (lhs, rhs, op) ->
  evaluates_on lhs rhs op (Search.root c) ->
  exists c1,
    Search.filter kwargs c = (Ok tt, c1) /\
    Search.filter kwargs c1 = (Ok tt, c1).
Proof.
  intros T E. eexists. split.
  - apply (filter_keeps_satisfying _ _ _ _ _ T E).
  - rewrite (filter_keeps_satisfying _ _ _ _ _ T).
    + simpl. now rewrite filter_filter.
    + simpl. now apply evaluates_on_filter.
Qed.

(** X20: from the same collection, [filter] and [exclude] with one
    predicate split the elements: what the one keeps and what the other keeps
    are together a rearrangement of the original list, the first all satisfy
    the predicate and the second all fail it. *)
Theorem filter_and_exclude_split (kwargs : list (string * V))
  (c : Search.SearchBase) (lhs : ByPath.AttrPath) (rhs : V)
  (op : Compare.Operators) :
  Search._get_compare_tuple kwargs = Ok (lhs, rhs, op) ->
  evaluates_on lhs rhs op (Search.root c) ->
  let kept := Search.root (snd (Search.filter kwargs c)) in
  let others := Search.root (snd (Search.exclude kwargs c)) in
  Permutation (kept ++ others)%list (Search.root c) /\
  (forall x, In x kept -> Search._compare x lhs rhs op = Ok true) /\
  (forall x, In x others -> Search._compare x lhs rhs op = Ok false).
Proof.
  intros T E.
  rewrite (filter_keeps_satisfying _ _ _ _ _ T E),
    (exclude_keeps_failing _ _ _ _ _ T E).
  cbn [snd Search.root]. split; [apply filter_partition|]. split.
  - intros x I. apply filter_In in I as [I S].
    now rewrite (evaluates_satisfies _ _ _ _ E x I), S.
  - intros x I. apply filter_In in I as [I S]. apply negb_true_iff in S.
    now rewrite (evaluates_satisfies _ _ _ _ E x I), S.
Qed.

(** X21: chained filters commute: where both predicates evaluate on the
    elements, filtering by the one and then by the other leaves the same
    collection as filtering in the other order, and all four calls return. *)
Theorem chained_filters_commute (k1 k2 : list (string * V))
  (c : Search.SearchBase) (lhs1 lhs2 : ByPath.AttrPath) (rhs1 rhs2 : V)
  (op1 op2 : Compare.Operators) :
  Search._get_compare_tuple k1 = Ok (lhs1, rhs1, op1) ->
  Search._get_compare_tuple k2 = Ok (lhs2, rhs2, op2) ->
  evaluates_on lhs1 rhs1 op1 (Search.root c) ->
  evaluates_on lhs2 rhs2 op2 (Search.root c) ->
  exists c1 c2 c12,
    Search.filter k1 c = (Ok tt, c1) /\ Search.filter k2 c1 = (Ok tt, c12) /\
    Search.filter k2 c = (Ok tt, c2) /\ Search.filter k1 c2 = (Ok tt, c12).
Proof.
  intros T1 T2 E1 E2. eexists _, _, _. repeat split.
  - apply (filter_keeps_satisfying _ _ _ _ _ T1 E1).
  - apply (filter_keeps_satisfying _ _ _ _ _ T2).
    simpl. now apply evaluates_on_filter.
  - apply (filter_keeps_satisfying _ _ _ _ _ T2 E2).
  - rewrite (filter_keeps_satisfying _ _ _ _ _ T1)
      by (simpl; now apply evaluates_on_filter).
    simpl. now rewrite filter_swap.
Qed.

Lemma comprehension_first_raise (keep : V -> result bool)
  (pre post : list V) (item : V) (e : exn) :
  (forall x, In x pre -> exists b, keep x = Ok b) ->
  keep item = Raise e ->
  Search.comprehension keep (pre ++ item :: post)%list = Raise e.
Proof.
  intros P K. induction pre as [|x pre IH]; simpl.
  - now rewrite K.
  - destruct (P x (or_introl eq_refl)) as [b ->]. simpl.
    rewrite IH by (intros y I; apply P; now right). reflexivity.
Qed.

(** X22: the elements are tested in order and the first test that raises
    ends the call: [filter] and [exclude] raise the exception of the first
    element on which the predicate does not evaluate, whatever the elements
    after it are. *)
Theorem first_failing_element_raises (kwargs : list (string * V))
  (c : Search.SearchBase) (lhs : ByPath.AttrPath) (rhs : V)
  (op : Compare.Operators) (pre post : list V) (item : V) (e : exn) :
  Search._get_compare_tuple kwargs = Ok (lhs, rhs, op) ->
  Search.root c = (pre ++ item :: post)%list ->
  evaluates_on lhs rhs op pre ->
  Search._compare item lhs rhs op = Raise e ->
  Search.filter kwargs c = (Raise e, c) /\
  Search.exclude kwargs c = (Raise e, c).
Proof.
  intros T R P K. rewrite filter_run, exclude_run, T, R. split.
  - now rewrite (comprehension_first_raise _ pre post item e P K).
  - rewrite (comprehension_first_raise _ pre post item e).
    + reflexivity.
    + intros x I. destruct (P x I) as [b ->]. now eexists.
    + now rewrite K.
Qed.

(** X23: a [get] that matches nothing empties the collection: every later
    [get] on it, with any key that decodes, returns its default. *)
Theorem get_after_no_match (default : V) (kwargs : list (string * V))
  (c : Search.SearchBase) (lhs : ByPath.AttrPath) (rhs : V)
  (op : Compare.Operators) :
  Search._get_compare_tuple kwargs = Ok (lhs, rhs, op) ->
  evaluates_on lhs rhs op (Search.root c) ->
  List.filter (satisfies lhs rhs op) (Search.root c) = [] ->
  let c' := snd (Search.get default kwargs c) in
  Search.root c' = [] /\
  (forall (default' : V) (kwargs' : list (string * V))
          (lhs' : ByPath.AttrPath) (rhs' : V) (op' : Compare.Operators),
      Search._get_compare_tuple kwargs' = Ok (lhs', rhs', op') ->
      Search.get default' kwargs' c' = (Ok default', c')).
Proof.
  intros T E M c'. subst c'.
  rewrite (get_run default _ _ _ _ _ T E), M. cbn [snd Search.root].
  split; [reflexivity|].
  intros default' kwargs' lhs' rhs' op' T'.
  rewrite (get_run default' _ _ _ _ _ T'); [reflexivity|].
  intros item [].
Qed.

(** X24: merging and filtering commute: where the predicate evaluates on
    the elements of a collection and of the one added to it, the merged
    collection filtered is the merge of the two collections filtered, and the
    length of a merged collection is the sum of the lengths. *)
Theorem merge_then_filter (kwargs : list (string * V))
  (c o : Search.SearchBase) (lhs : ByPath.AttrPath) (rhs : V)
  (op : Compare.Operators) :
  Search._get_compare_tuple kwargs = Ok (lhs, rhs, op) ->
  evaluates_on lhs rhs op (Search.root c) ->
  evaluates_on lhs rhs op (Search.root o) ->
  let merged := snd (SearchOps.add (SearchOps.OtherSearchBase o) c) in
  List.length (Search.root merged)
  = (List.length (Search.root c) + List.length (Search.root o))%nat /\
  Search.filter kwargs merged
  = (Ok tt,
     snd (SearchOps.add
            (SearchOps.OtherSearchBase (snd (Search.filter kwargs o)))
            (snd (Search.filter kwargs c)))) /\
  SearchOps.add (SearchOps.OtherIterable (SearchOps.iter o)) c
  = SearchOps.add (SearchOps.OtherSearchBase o) c.
Proof.
  intros T Ec Eo merged. subst merged. cbn [SearchOps.add snd Search.root].
  split; [apply List.length_app|]. split; [|reflexivity].
  rewrite (filter_keeps_satisfying _ c _ _ _ T Ec),
    (filter_keeps_satisfying _ o _ _ _ T Eo).
  rewrite (filter_keeps_satisfying _ _ _ _ _ T).
  - cbn [snd Search.root]. now rewrite filter_app.
  - cbn [Search.root]. intros item I. apply in_app_or in I as [I|I]; auto.
Qed.

End Chains.

Lemma links_evaluate_value_iequal (rhs : string) :
  evaluates_on (ByPath.AttrPath_init "value") (PyObj.PyStr rhs) Compare.IEQUAL
    (Search.root Sample.links).
Proof.
  intros item I. simpl in I.
  destruct I as [<-|[<-|[<-|[]]]]; eexists; reflexivity.
Qed.

Lemma filter_idempotent_witness :
  exists c1,
    Search.filter [("value_iequal", PyObj.PyStr "PLAYROOM")] Sample.links
    = (Ok tt, c1) /\
    Search.filter [("value_iequal", PyObj.PyStr "PLAYROOM")] c1 = (Ok tt, c1).
Proof.
  exact (filter_idempotent [("value_iequal", PyObj.PyStr "PLAYROOM")]
           Sample.links (ByPath.AttrPath_init "value") (PyObj.PyStr "PLAYROOM")
           Compare.IEQUAL eq_refl (links_evaluate_value_iequal _)).
Defined.

Lemma filter_and_exclude_split_witness :
  Permutation
    (Search.root
       (snd (Search.filter [("value_iequal", PyObj.PyStr "PLAYROOM")] Sample.links))
     ++ Search.root
          (snd (Search.exclude [("value_iequal", PyObj.PyStr "PLAYROOM")]
                  Sample.links)))%list
    (Search.root Sample.links).
Proof.
  exact (proj1 (filter_and_exclude_split
                  [("value_iequal", PyObj.PyStr "PLAYROOM")]
                  Sample.links (ByPath.AttrPath_init "value")
                  (PyObj.PyStr "PLAYROOM") Compare.IEQUAL eq_refl
                  (links_evaluate_value_iequal _))).
Defined.

Lemma chained_filters_commute_witness :
  exists c1 c2 c12,
    Search.filter [("value_iequal", PyObj.PyStr "PLAYROOM")] Sample.links
    = (Ok tt, c1) /\
    Search.filter [("id_eq", PyObj.PyInt 3)] c1 = (Ok tt, c12) /\
    Search.filter [("id_eq", PyObj.PyInt 3)] Sample.links = (Ok tt, c2) /\
    Search.filter [("value_iequal", PyObj.PyStr "PLAYROOM")] c2 = (Ok tt, c12).
Proof.
  exact (chained_filters_commute
           [("value_iequal", PyObj.PyStr "PLAYROOM")] [("id_eq", PyObj.PyInt 3)]
           Sample.links (ByPath.AttrPath_init "value") (ByPath.AttrPath_init "id")
           (PyObj.PyStr "PLAYROOM") (PyObj.PyInt 3) Compare.IEQUAL Compare.EQ
           eq_refl eq_refl (links_evaluate_value_iequal _)
           (links_evaluate_id_eq _)).
Defined.

Lemma first_failing_element_raises_witness :
  Search.filter [("value_eq", PyObj.PyStr "Piatnik")]
    {| Search.root := [Sample.link 1 "Piatnik"; Sample.nested;
                       Sample.link 2 "Playroom"] |}
  = (Raise (AttributeError
              "'Thing' object has no attribute path 'value', since 'Thing' object has no attribute 'value'"),
     {| Search.root := [Sample.link 1 "Piatnik"; Sample.nested;
                        Sample.link 2 "Playroom"] |}).
Proof.
  refine (proj1 (first_failing_element_raises
                   [("value_eq", PyObj.PyStr "Piatnik")]
                   {| Search.root := [Sample.link 1 "Piatnik"; Sample.nested;
                                      Sample.link 2 "Playroom"] |}
                   (ByPath.AttrPath_init "value") (PyObj.PyStr "Piatnik")
                   Compare.EQ [Sample.link 1 "Piatnik"]
                   [Sample.link 2 "Playroom"] Sample.nested _
                   eq_refl eq_refl _ eq_refl)).
  intros item [<-|[]]. eexists. reflexivity.
Defined.

Lemma get_after_no_match_witness :
  Search.root (snd (Search.get PyObj.PyNone [("id_eq", PyObj.PyInt 9)] Sample.links))
  = [] /\
  Search.get (PyObj.PyInt 0) [("id_eq", PyObj.PyInt 1)]
    (snd (Search.get PyObj.PyNone [("id_eq", PyObj.PyInt 9)] Sample.links))
  = (Ok (PyObj.PyInt 0),
     snd (Search.get PyObj.PyNone [("id_eq", PyObj.PyInt 9)] Sample.links)).
Proof.
  pose proof (get_after_no_match PyObj.PyNone [("id_eq", PyObj.PyInt 9)]
                Sample.links (ByPath.AttrPath_init "id") (PyObj.PyInt 9)
                Compare.EQ eq_refl (links_evaluate_id_eq _) eq_refl) as [E L].
  split; [exact E|].
  exact (L (PyObj.PyInt 0) [("id_eq", PyObj.PyInt 1)]
           (ByPath.AttrPath_init "id") (PyObj.PyInt 1) Compare.EQ eq_refl).
Defined.

Lemma merge_then_filter_witness :
  Search.filter [("id_eq", PyObj.PyInt 1)]
    (snd (SearchOps.add (SearchOps.OtherSearchBase Sample.links) Sample.links))
  = (Ok tt, {| Search.root := [Sample.link 1 "Piatnik"; Sample.link 1 "Piatnik"] |}).
Proof.
  exact (proj1 (proj2 (merge_then_filter [("id_eq", PyObj.PyInt 1)]
                         Sample.links Sample.links (ByPath.AttrPath_init "id")
                         (PyObj.PyInt 1) Compare.EQ eq_refl
                         (links_evaluate_id_eq _) (links_evaluate_id_eq _)))).
Defined.

(** ** Indexed access to a collection *)

Lemma position_in_range {A : Type} (l : list A) (index : Z) :
  (- Z.of_nat (List.length l) <= index < Z.of_nat (List.length l))%Z ->
  exists i, PyList.position l index = Some i /\ (i < List.length l)%nat.
Proof.
  intros R. unfold PyList.position. cbv zeta.
  destruct (index <? 0)%Z eqn:S; cbv iota.
  - apply Z.ltb_lt in S.
    replace (index + Z.of_nat (List.length l) <? 0)%Z with false
      by (symmetry; apply Z.ltb_ge; lia).
    replace (Z.of_nat (List.length l) <=? index + Z.of_nat (List.length l))%Z
      with false by (symmetry; apply Z.leb_gt; lia).
    eexists. split; [reflexivity | lia].
  - rewrite S. apply Z.ltb_ge in S.
    replace (Z.of_nat (List.length l) <=? index)%Z
      with false by (symmetry; apply Z.leb_gt; lia).
    eexists. split; [reflexivity | lia].
Qed.

Lemma position_out_of_range {A : Type} (l : list A) (index : Z) :
  (index < - Z.of_nat (List.length l) \/ Z.of_nat (List.length l) <= index)%Z ->
  PyList.position l index = None.
Proof.
  intros R. unfold PyList.position. cbv zeta.
  destruct (index <? 0)%Z eqn:S; cbv iota.
  - apply Z.ltb_lt in S.
    replace (index + Z.of_nat (List.length l) <? 0)%Z with true
      by (symmetry; apply Z.ltb_lt; lia).
    reflexivity.
  - rewrite S. apply Z.ltb_ge in S.
    replace (Z.of_nat (List.length l) <=? index)%Z
      with true by (symmetry; apply Z.leb_le; lia).
    reflexivity.
Qed.

Lemma position_replaced {A : Type} (l : list A) (i : nat) (v : A) (index : Z) :
  (i < List.length l)%nat ->
  PyList.position l index = Some i ->
  let l' := (firstn i l ++ v :: skipn (S i) l)%list in
  List.length l' = List.length l /\
  PyList.position l' index = Some i /\
  nth_error l' i = Some v.
Proof.
  intros L P l'.
  assert (N : List.length l' = List.length l).
  { subst l'. rewrite List.length_app. cbn [List.length].
    rewrite length_firstn, length_skipn. lia. }
  split; [exact N|]. split.
  - unfold PyList.position in *. now rewrite N.
  - subst l'.
    replace i with (List.length (firstn i l)) at 3
      by (rewrite length_firstn; lia).
    apply nth_error_middle.
Qed.

Section Indexed.
Context {V : Type} `{PyData V}.

(** X25: item assignment and item access on a collection: for an index
    within [-len, len) the assignment returns, the length is unchanged and
    reading the same index gives the value assigned; for any other index both
    raise [IndexError] and the collection is left as it was. *)
Theorem setitem_then_getitem (c : Search.SearchBase) (key : Z) (value : V) :
  let len := Z.of_nat (List.length (Search.root c)) in
  ((- len <= key < len)%Z ->
   exists c',
     SearchOps.setitem key value c = (Ok tt, c') /\
     SearchOps.getitem key c' = (Ok value, c') /\
     List.length (Search.root c') = List.length (Search.root c)) /\
  ((key < - len \/ len <= key)%Z ->
   SearchOps.setitem key value c
   = (Raise (IndexError "list assignment index out of range"), c) /\
   SearchOps.getitem key c
   = (Raise (IndexError "list index out of range"), c)).
Proof.
  intros len. subst len. split.
  - intros R. destruct (position_in_range _ _ R) as (i & P & L).
    destruct (position_replaced _ i value key L P) as (N & P' & G).
    unfold SearchOps.setitem, SearchOps.getitem, PyList.setitem, PyList.getitem.
    rewrite P. eexists. split; [reflexivity|]. cbn [Search.root].
    now rewrite P', G.
  - intros R. pose proof (position_out_of_range _ _ R) as P.
    unfold SearchOps.setitem, SearchOps.getitem, PyList.setitem, PyList.getitem.
    now rewrite P.
Qed.

(** X26: [append] puts the element at the end: the length grows by one,
    the element is read back at index -1 and at the old length, and every
    element that was in the collection keeps its index. *)
Theorem append_at_end (c : Search.SearchBase) (item : V) :
  let c' := snd (Search.append item c) in
  fst (Search.append item c) = Ok tt /\
  List.length (Search.root c') = S (List.length (Search.root c)) /\
  SearchOps.getitem (-1) c' = (Ok item, c') /\
  SearchOps.getitem (Z.of_nat (List.length (Search.root c))) c' = (Ok item, c') /\
  (forall (i : nat) (x : V),
      nth_error (Search.root c) i = Some x ->
      SearchOps.getitem (Z.of_nat i) c' = (Ok x, c')).
Proof.
  intros c'. subst c'. cbn [Search.append mbind read Search.set_root fst snd].
  set (l := Search.root c).
  assert (P : forall k : nat, (k < List.length (l ++ [item]))%nat ->
              PyList.position (l ++ [item])%list (Z.of_nat k) = Some k).
  { intros k K. unfold PyList.position.
    replace (Z.of_nat k <? 0)%Z with false by (symmetry; apply Z.ltb_ge; lia).
    replace (Z.of_nat k <? 0)%Z with false by (symmetry; apply Z.ltb_ge; lia).
    replace (Z.of_nat (List.length (l ++ [item])) <=? Z.of_nat k)%Z with false
      by (symmetry; apply Z.leb_gt; lia).
    simpl. now rewrite Nat2Z.id. }
  assert (L : List.length (l ++ [item]) = S (List.length l))
    by (rewrite List.length_app; simpl; lia).
  repeat split.
  - exact L.
  - unfold SearchOps.getitem, PyList.getitem. cbn [Search.root].
    assert (Q : PyList.position (l ++ [item])%list (-1) = Some (List.length l)).
    { unfold PyList.position. rewrite L. change (-1 <? 0)%Z with true. cbv iota.
      replace (-1 + Z.of_nat (S (List.length l)))%Z
        with (Z.of_nat (List.length l)) by lia.
      replace (Z.of_nat (List.length l) <? 0)%Z with false
        by (symmetry; apply Z.ltb_ge; lia).
      replace (Z.of_nat (S (List.length l)) <=? Z.of_nat (List.length l))%Z
        with false by (symmetry; apply Z.leb_gt; lia).
      simpl. now rewrite Nat2Z.id. }
    now rewrite Q, nth_error_middle.
  - unfold SearchOps.getitem, PyList.getitem. cbn [Search.root].
    rewrite P by lia. now rewrite nth_error_middle.
  - intros i x N. unfold SearchOps.getitem, PyList.getitem. cbn [Search.root].
    assert (I : (i < List.length l)%nat)
      by (apply nth_error_Some; congruence).
    rewrite P by lia. now rewrite nth_error_app1, N by exact I.
Qed.

End Indexed.

Lemma setitem_then_getitem_witness :
  exists c',
    SearchOps.setitem (-1) (Sample.link 4 "Ravensburger") Sample.links
    = (Ok tt, c') /\
    SearchOps.getitem (-1) c' = (Ok (Sample.link 4 "Ravensburger"), c') /\
    List.length (Search.root c') = List.length (Search.root Sample.links).
Proof.
  apply (proj1 (setitem_then_getitem Sample.links (-1)
                  (Sample.link 4 "Ravensburger"))).
  simpl. lia.
Defined.

(** ** Records that were constructed *)

Ltac step_binds E :=
  repeat match type of E with
         | bind ?r _ = Ok _ =>
             let a := fresh "a" in
             let F := fresh "F" in
             destruct r as [a|] eqn:F; [cbn [bind] in E | discriminate E]
         end.

Section Constructed.
Variable int_of_str : string -> option Z.
Variable valid_url : string -> bool.
Variable now_year : Z.
Variable Polls : Type.
Variable validate_polls : Models.raw -> result Polls.
Variable no_polls : Polls.

Lemma YearPublished_init_holds_None (data : list (string * Models.raw))
  (y : Models.YearPublished) :
  Models.YearPublished_init int_of_str now_year data = Ok y ->
  y = {| Models.YearPublished_value := None |}.
Proof.
  unfold Models.YearPublished_init, Models.required.
  destruct (Models.lookup_choices _ data) as [r|]; [|discriminate].
  unfold Models.YearPublished_validate_value.
  destruct (Models.validate_int int_of_str "value" r) as [v|e]; [|discriminate].
  simpl. destruct (negb (v =? 0)%Z && (now_year <? v)%Z); simpl.
  - discriminate.
  - now intros [= <-].
Qed.

Lemma Thing_validate_name_not_nil (loc : string) (r : Models.raw)
  (names : list Models.ThingName) :
  Models.Thing_validate_name loc r = Ok names -> names <> [].
Proof.
  unfold Models.Thing_validate_name. intros E. step_binds E.
  destruct a as [|n l]; simpl in E; [discriminate|].
  injection E as <-. discriminate.
Qed.

(** X27: every [Thing] that was constructed has at least one name. *)
Theorem Thing_has_a_name (data : list (string * Models.raw))
  (t : Models.Thing Polls) :
  Models.Thing_init int_of_str valid_url now_year Polls validate_polls
    no_polls data = Ok t ->
  Models.Thing_name Polls t <> [].
Proof.
  unfold Models.Thing_init. intros E. step_binds E.
  injection E as <-. cbn [Models.Thing_name].
  match goal with
  | N : Models.required "name" _ _ _ = Ok _ |- _ =>
      unfold Models.required in N;
      destruct (Models.lookup_choices (Models.alias_choices "name") data);
      [exact (Thing_validate_name_not_nil _ _ _ N) | discriminate N]
  end.
Qed.

(** X28: a [Thing] that was constructed from data with a publication year
    does not carry the year: its [year_published] is there, and the value in
    it is [None]. *)
Theorem Thing_loses_the_year (data : list (string * Models.raw))
  (t : Models.Thing Polls) (y : Models.YearPublished) :
  Models.Thing_init int_of_str valid_url now_year Polls validate_polls
    no_polls data = Ok t ->
  Models.Thing_year_published Polls t = Some y ->
  Models.YearPublished_value y = None.
Proof.
  unfold Models.Thing_init. intros E Y. step_binds E.
  injection E as <-. cbn [Models.Thing_year_published] in Y. subst.
  match goal with
  | N : Models.defaulted "year_published" _ _ _ _ = Ok _ |- _ =>
      unfold Models.defaulted in N;
      destruct (Models.lookup_choices (Models.alias_choices "year_published")
                  data) as [r|]; [|discriminate N];
      unfold Models.validate_year_published, Models.validate_nullable in N;
      destruct r as [|z|s|l|d]; try discriminate N;
      unfold Models.validate_model, Models.invalid in N; simpl in N;
      try discriminate N
  end.
  destruct (Models.YearPublished_init int_of_str now_year d) as [y'|] eqn:I;
    [|discriminate].
  simpl in *. apply YearPublished_init_holds_None in I.
  match goal with N : Ok (Some _) = Ok (Some _) |- _ => injection N as <- end.
  now subst y'.
Qed.

(** X29: with the current year not negative, a [YearPublished] is
    constructed from an integer exactly when the integer is not greater than
    the current year: past years, zero and negative integers are accepted,
    every later year fails with a validation error. *)
Theorem YearPublished_accepts_up_to_now (v : Z) :
  (0 <= now_year)%Z ->
  ((v <= now_year)%Z ->
   Models.YearPublished_init int_of_str now_year [("value", Models.RInt v)]
   = Ok {| Models.YearPublished_value := None |}) /\
  ((now_year < v)%Z ->
   exists msg,
     Models.YearPublished_init int_of_str now_year [("value", Models.RInt v)]
     = Raise (ValidationError msg)).
Proof.
  intros Y.
  unfold Models.YearPublished_init, Models.required. simpl.
  unfold Models.YearPublished_validate_value. simpl. split; intros L.
  - replace (now_year <? v)%Z with false by (symmetry; apply Z.ltb_ge; lia).
    now rewrite andb_false_r.
  - replace (now_year <? v)%Z with true by (symmetry; apply Z.ltb_lt; lia).
    replace (v =? 0)%Z with false by (symmetry; apply Z.eqb_neq; lia).
    simpl. now eexists.
Qed.

Lemma validate_each_length {A : Type} (f : Models.raw -> result A)
  (l : list Models.raw) (validated : list A) :
  Models.validate_each f l = Ok validated ->
  List.length validated = List.length l.
Proof.
  revert validated. induction l as [|r l IH]; intros validated E.
  - now injection E as <-.
  - simpl in E. step_binds E. injection E as <-. simpl.
    now rewrite (IH _ eq_refl).
Qed.

(** X30: the items of a parsed feed: a single item, which the parser gives
    as a bare dictionary, is handled as the list of that one item, and a feed
    without the [items] key raises [KeyError].  When the feed has a list of
    items and the call returns, there is one [Thing] for each item. *)
Theorem from_parsed_items (feed : list (string * Models.raw)) :
  let from_parsed :=
    Models.from_parsed int_of_str valid_url now_year Polls validate_polls
      no_polls in
  (forall d : list (string * Models.raw),
      from_parsed (Models.RDict [("items", Models.RDict [("item", Models.RDict d)])])
      = from_parsed
          (Models.RDict
             [("items", Models.RDict [("item", Models.RList [Models.RDict d])])]) /\
      from_parsed (Models.RDict [("items", Models.RDict [("item", Models.RDict d)])])
      = bind (Models.Thing_init int_of_str valid_url now_year Polls
                validate_polls no_polls d) (fun t => Ok [t])) /\
  (Models.lookup "items" feed = None ->
   from_parsed (Models.RDict feed) = Raise (KeyError "items")) /\
  (forall (items : list (string * Models.raw)) (l : list Models.raw)
          (things : list (Models.Thing Polls)),
      Models.lookup "items" feed = Some (Models.RDict items) ->
      Models.lookup "item" items = Some (Models.RList l) ->
      from_parsed (Models.RDict feed) = Ok things ->
      List.length things = List.length l).
Proof.
  intros from_parsed. subst from_parsed. split; [|split].
  - intros d. split; [reflexivity|].
    unfold Models.from_parsed. simpl.
    now destruct (Models.Thing_init _ _ _ _ _ _ d).
  - intros L. unfold Models.from_parsed, Models.subscript. now rewrite L.
  - intros items l things I L.
    unfold Models.from_parsed, Models.subscript. rewrite I. cbn [bind].
    rewrite L. cbn [bind].
    generalize (fun item_data : Models.raw =>
                  match item_data with
                  | Models.RDict d =>
                      Models.Thing_init int_of_str valid_url now_year Polls
                        validate_polls no_polls d
                  | _ => Raise (TypeError "argument after ** must be a mapping")
                  end).
    intros f. apply validate_each_length.
Qed.

End Constructed.

Lemma Thing_has_a_name_witness :
  Models.Thing_name _
    {| Models.Thing_id := 1234;
       Models.Thing_thing_type := Models.ThingType.BOARDGAME;
       Models.Thing_description := "A game about bunnies.";
       Models.Thing_thumbnail := "https://example.org/thumb.png";
       Models.Thing_image := "https://example.org/image.png";
       Models.Thing_name :=
         [{| Models.ThingName_name_type := Models.NameType.PRIMARY;
             Models.ThingName_value := "Killer Bunnies" |}];
       Models.Thing_year_published :=
         Some {| Models.YearPublished_value := None |};
       Models.Thing_min_players := None;
       Models.Thing_max_players := None;
       Models.Thing_playing_time := None;
       Models.Thing_min_play_time := None;
       Models.Thing_min_age := None;
       Models.Thing_link := [];
       Models.Thing_poll := ([] : list Models.raw) |} <> [].
Proof.
  exact (Thing_has_a_name Sample.decimal_int Sample.http_url 2026
           (list Models.raw) Sample.polls_as_given []
           (Sample.item_with_name
              (Models.RList [Sample.name_entry "primary" "Killer Bunnies"]))
           _ eq_refl).
Defined.

Lemma Thing_loses_the_year_witness :
  Models.YearPublished_value {| Models.YearPublished_value := None |} = None.
Proof.
  exact (Thing_loses_the_year Sample.decimal_int Sample.http_url 2026
           (list Models.raw) Sample.polls_as_given []
           (Sample.item_with_name
              (Models.RList [Sample.name_entry "primary" "Killer Bunnies"]))
           _ {| Models.YearPublished_value := None |} eq_refl eq_refl).
Defined.

Lemma YearPublished_accepts_up_to_now_witness :
  Sample.year_published_init [("value", Models.RInt (-44))]
  = Ok {| Models.YearPublished_value := None |} /\
  exists msg,
    Sample.year_published_init [("value", Models.RInt 3000)]
    = Raise (ValidationError msg).
Proof.
  assert (Y : (0 <= 2026)%Z) by lia.
  split.
  - apply (proj1 (YearPublished_accepts_up_to_now Sample.decimal_int 2026
                    (-44) Y)). lia.
  - apply (proj2 (YearPublished_accepts_up_to_now Sample.decimal_int 2026
                    3000 Y)). lia.
Defined.

Lemma path_popleft_reassembles_witness :
  "a__b__c" = "a" ++ "__" ++ "b__c".
Proof.
  apply (proj2 (path_popleft_reassembles "a__b__c")). simpl. lia.
Defined.

Lemma path_popright_reassembles_witness :
  "a__b__c" = "a__b" ++ "__" ++ "c".
Proof.
  apply (proj2 (path_popright_reassembles "a__b__c")). simpl. lia.
Defined.

Lemma append_at_end_witness :
  SearchOps.getitem 1 (snd (Search.append (Sample.link 4 "Ravensburger") Sample.links))
  = (Ok (Sample.link 2 "Playroom"),
     snd (Search.append (Sample.link 4 "Ravensburger") Sample.links)).
Proof.
  exact (proj2 (proj2 (proj2 (proj2
           (append_at_end Sample.links (Sample.link 4 "Ravensburger")))))
           1%nat (Sample.link 2 "Playroom") eq_refl).
Defined.

Lemma from_parsed_items_witness :
  Models.from_parsed Sample.decimal_int Sample.http_url 2026 (list Models.raw)
    Sample.polls_as_given [] (Models.RDict [("item", Models.RDict [])])
  = Raise (KeyError "items").
Proof.
  exact (proj1 (proj2 (from_parsed_items Sample.decimal_int Sample.http_url 2026
                         (list Models.raw) Sample.polls_as_given []
                         [("item", Models.RDict [])])) eq_refl).
Defined.
